(** * truesight: the face-measurement pipeline of [app.py]

    A shallow embedding of [is_face_centered], [detect_iris_boundaries],
    [detect_pupil_center] and [process_frame], and the properties the
    specification states about them.

    Numbers.  Pixel coordinates are Python/numpy integers and are modelled
    by [Z] ([//] is [Z.div], which floors like Python for the divisor 2).
    Every quantity that the program computes in binary floating point
    ([frame_width * 0.2], [63 / d], [round (_, 2)], ...) is modelled by the
    rational number it denotes, in [Q], with every operation exact: the
    rounding error of the individual float operations is not part of this
    model.  [round (x, 2)] is rounding of [100 * x] to the nearest integer,
    ties to even, divided by [100]; [int (x)] truncates towards zero.
    [Module Binary64] repeats the float arithmetic of [is_face_centered] and
    of the approximate branch with IEEE 754 doubles.  For [is_face_centered]
    and [int (w * 0.6)] it is checked to give what the exact model gives on
    frames up to 640x480.  For [round (x * ratio, 2)] it does not always:
    where the exact product is a tie the double product lies on one side of
    it, and the last digit of the result can be the other neighbour
    ([binary64_tie_b_size], [binary64_tie_bridge]).  The properties of the
    three rounded fields are therefore stated with [rounds_to], which holds
    of either neighbour, and not as an equation with [round2];
    [binary64_approximate_rounds_to] and [binary64_precise_rounds_to] check
    on a range of eye boxes that the doubles satisfy it.

    OpenCV.  The cascade classifiers, [cv2.HoughCircles], the colour
    conversion, the blur and numpy slicing are not code of this program: they
    are the fields of the class [OpenCV]. *)

From Stdlib Require Import ZArith QArith Qround Qabs Qminmax Lqa.
From Stdlib Require Import Bool List String Lia.
From Stdlib Require Import Permutation Sorted.
From Stdlib Require Floats Uint63.
Import ListNotations.

Open Scope Z_scope.

(** ** Numeric helpers *)

(** [a < b] on floats/ints, as a boolean. *)
Definition Qltb (a b : Q) : bool :=
  (Qnum a * QDen b <? Qnum b * QDen a)%Z.

(** Nearest integer, ties to even ([np.around], and the core of [round]). *)
Definition round_half_even (q : Q) : Z :=
  let f := Qfloor q in
  match ((q - inject_Z f) ?= (1 # 2))%Q with
  | Lt => f
  | Gt => f + 1
  | Eq => if Z.even f then f else f + 1
  end.

(** [round (x, 2)]. *)
Definition round2 (x : Q) : Q :=
  (inject_Z (round_half_even (x * 100)) / 100)%Q.

(** [int (x)] on a float: truncation towards zero. *)
Definition int_of_float (x : Q) : Z :=
  if Qltb x 0%Q then Qceiling x else Qfloor x.

(** A value with at most two decimals. *)
Definition two_decimals (v : Q) : Prop :=
  exists n : Z, (v == inject_Z n / 100)%Q.

(** ** Data *)

(** A row [(x, y, w, h)] of [detectMultiScale]; [b[0]] .. [b[3]]. *)
Record Box : Type := mkBox { bx : Z; by_ : Z; bw : Z; bh : Z }.

(** A circle [(x, y, r)] of [cv2.HoughCircles], before rounding. *)
Definition Circle : Type := (Q * Q * Q)%type.

(** The dictionary built at the end of [process_frame]. *)
Record Measurement : Type := mkMeasurement {
  eye_width_mm : Q;
  bridge_width_mm : Q;
  b_size_mm : Q
}.

(** What a call of [process_frame] does: it returns the pair
    [(measurement, error_msg)], each component possibly [None], or an
    exception escapes. *)
Inductive Outcome : Type :=
| Returns (measurement : option Measurement) (error_msg : option string)
| Raises (exn : string).

(** Which branch of the conditional at lines 118-144 ran (ghost). *)
Inductive Path : Type := Precise | Approximate.

(** The local variables that the calibration block (lines 118-144) leaves
    behind, with the ghost [cal_path]. *)
Record Calibration : Type := mkCalibration {
  cal_path : Path;
  cal_eye_pixels : Q;                 (* eye_total_width_pixels / avg_eye_width *)
  interpupil_distance_pixels : Q;
  pixel_to_mm_ratio : Q;
  cal_eye_width_mm : Q
}.

Definition KNOWN_DISTANCE_MM : Z := 63.

(** ** [is_face_centered] (lines 20-32) *)

Definition is_face_centered
    (face_x face_y face_w face_h frame_width frame_height : Z) : bool :=
  let center_x := face_x + face_w / 2 in
  let center_y := face_y + face_h / 2 in
  let tolerance_x := (inject_Z frame_width * (2 # 10))%Q in
  let tolerance_y := (inject_Z frame_height * (2 # 10))%Q in
  let min_face_height := (inject_Z frame_height * (3 # 10))%Q in
  (Qltb (inject_Z (frame_width / 2) - tolerance_x) (inject_Z center_x)
   && Qltb (inject_Z center_x) (inject_Z (frame_width / 2) + tolerance_x))
  && (Qltb (inject_Z (frame_height / 2) - tolerance_y) (inject_Z center_y)
      && Qltb (inject_Z center_y) (inject_Z (frame_height / 2) + tolerance_y))
  && Qltb min_face_height (inject_Z face_h).

(** ** The ratio of lines 129-132 and 140-143 *)

Definition ratio_of_distance (interpupil : Q) : Q :=
  if Qltb 0%Q interpupil
  then (inject_Z KNOWN_DISTANCE_MM / interpupil)%Q
  else 1%Q.

(** ** Sorting: [sorted (eyes, key=lambda b: b[0])]

    Python's [sorted] is stable; a stable sort has one possible result, here
    computed by insertion. *)

Fixpoint insert_by_x (b : Box) (l : list Box) : list Box :=
  match l with
  | [] => [b]
  | c :: t => if bx c <? bx b then c :: insert_by_x b t else b :: c :: t
  end.

Fixpoint sorted_by_x (l : list Box) : list Box :=
  match l with
  | [] => []
  | b :: t => insert_by_x b (sorted_by_x t)
  end.

(** Ascending order of [x]. *)
Definition le_x (a b : Box) : Prop := bx a <= bx b.

(** ** OpenCV and numpy, as an interface *)

Class OpenCV : Type := {
  (** a numpy image *)
  image : Type;
  (** [img.shape[:2]]: rows, columns *)
  shape : image -> Z * Z;
  (** [cv2.cvtColor (img, cv2.COLOR_BGR2GRAY)] *)
  cvtColor_gray : image -> image;
  (** [cv2.medianBlur (img, k)] *)
  medianBlur : image -> Z -> image;
  (** [img[y0:y1, x0:x1]] *)
  slice : image -> Z -> Z -> Z -> Z -> image;
  (** [face_cascade.detectMultiScale (gray, 1.3, 5, minSize=(100, 100))] *)
  face_cascade : image -> list Box;
  (** [eye_cascade.detectMultiScale (roi_gray, 1.2, 5, minSize=(30, 30))] *)
  eye_cascade : image -> list Box;
  (** [cv2.HoughCircles (img, HOUGH_GRADIENT, dp=1, minDist, param1=50,
      param2=30, minRadius, maxRadius)], given [minDist], [minRadius] and
      [maxRadius]: [None], or the array [circles[0, :]] of the circles
      found, which is then never empty *)
  HoughCircles : image -> Q -> Z -> Z -> option (Circle * list Circle)
}.

Section Pipeline.

Context {cv : OpenCV}.

(** [np.around (circles[0, :]).astype (int)] and then [circles[0]]. *)
Definition first_circle (circles : Circle * list Circle) : Z * Z * Z :=
  let '(x, y, r) := fst circles in
  (round_half_even x, round_half_even y, round_half_even r).

(** ** [detect_iris_boundaries] (lines 34-55) *)

(** Lines 39-50: the search for circles. *)
Definition iris_circles (eye_roi : image) : option (Circle * list Circle) :=
  let gray_eye := cvtColor_gray eye_roi in
  let gray_eye := medianBlur gray_eye 5 in
  HoughCircles gray_eye
    (inject_Z (fst (shape gray_eye)) / 2)%Q
    5
    (int_of_float (inject_Z (fst (shape gray_eye)) / 2)%Q).

Definition detect_iris_boundaries (eye_roi : image) : option Z * option Z :=
  match iris_circles eye_roi with
  | Some circles =>
      let '(x, y, r) := first_circle circles in
      (Some (x - r), Some (x + r))
  | None => (None, None)
  end.

(** ** [detect_pupil_center] (lines 57-78) *)

(** Lines 62-73. *)
Definition pupil_circles (eye_roi : image) : option (Circle * list Circle) :=
  let gray_eye := cvtColor_gray eye_roi in
  let gray_eye := medianBlur gray_eye 5 in
  HoughCircles gray_eye
    (inject_Z (fst (shape gray_eye)) / 2)%Q
    3
    20.

Definition detect_pupil_center (eye_roi : image) : option (Z * Z) :=
  match pupil_circles eye_roi with
  | Some circles =>
      let '(x, y, r) := first_circle circles in
      Some (x, y)
  | None => None
  end.

(** ** The calibration block of [process_frame] (lines 118-144) *)
Definition calibrate (left_eye right_eye : Box)
    (left_boundaries right_boundaries : option Z * option Z)
    (left_pupil right_pupil : option (Z * Z)) : Calibration :=
  match fst left_boundaries, snd right_boundaries, left_pupil, right_pupil with
  | Some left_boundary, Some right_boundary, Some left_pupil, Some right_pupil =>
      let left_iris_global := bx left_eye + left_boundary in
      let right_iris_global := bx right_eye + right_boundary in
      let eye_total_width_pixels := right_iris_global - left_iris_global in
      let left_pupil_global := bx left_eye + fst left_pupil in
      let right_pupil_global := bx right_eye + fst right_pupil in
      let interpupil := right_pupil_global - left_pupil_global in
      let ratio := ratio_of_distance (inject_Z interpupil) in
      mkCalibration Precise
        (inject_Z eye_total_width_pixels)
        (inject_Z interpupil)
        ratio
        (round2 (inject_Z eye_total_width_pixels * ratio))
  | _, _, _, _ =>
      let avg_eye_width := (inject_Z (bw left_eye + bw right_eye) / 2)%Q in
      let left_center := (inject_Z (bx left_eye) + inject_Z (bw left_eye) / 2)%Q in
      let right_center := (inject_Z (bx right_eye) + inject_Z (bw right_eye) / 2)%Q in
      let interpupil := (right_center - left_center)%Q in
      let ratio := ratio_of_distance interpupil in
      mkCalibration Approximate
        avg_eye_width
        interpupil
        ratio
        (round2 (avg_eye_width * ratio))
  end.

(** Lines 147 and 151-153. *)
Definition bridge_distance_pixels (left_eye right_eye : Box) : Z :=
  bx right_eye - (bx left_eye + bw left_eye).

Definition capped_eye_height (eye : Box) : Z :=
  Z.min (bh eye) (int_of_float (inject_Z (bw eye) * (6 # 10))%Q).

Definition b_size_pixels (left_eye right_eye : Box) : Z :=
  Z.max (capped_eye_height left_eye) (capped_eye_height right_eye).

(** Lines 110-111: [roi_color[e[1]:e[1] + e[3], e[0]:e[0] + e[2]]]. *)
Definition eye_roi_of (roi_color : image) (eye : Box) : image :=
  slice roi_color (by_ eye) (by_ eye + bh eye) (bx eye) (bx eye + bw eye).

(** Lines 110-144: the four sub-feature detections and the calibration
    they select. *)
Definition calibration_of (roi_color : image) (left_eye right_eye : Box)
    : Calibration :=
  let left_eye_roi := eye_roi_of roi_color left_eye in
  let right_eye_roi := eye_roi_of roi_color right_eye in
  let left_boundaries := detect_iris_boundaries left_eye_roi in
  let right_boundaries := detect_iris_boundaries right_eye_roi in
  let left_pupil := detect_pupil_center left_eye_roi in
  let right_pupil := detect_pupil_center right_eye_roi in
  calibrate left_eye right_eye
    left_boundaries right_boundaries left_pupil right_pupil.

(** Lines 110-160: from the two chosen eye boxes to the dictionary. *)
Definition measure_eyes (roi_color : image) (left_eye right_eye : Box)
    : Measurement :=
  let cal := calibration_of roi_color left_eye right_eye in
  let ratio := pixel_to_mm_ratio cal in
  mkMeasurement
    (cal_eye_width_mm cal)
    (round2 (inject_Z (bridge_distance_pixels left_eye right_eye) * ratio))
    (round2 (inject_Z (b_size_pixels left_eye right_eye) * ratio)).

(** Lines 98-161: the body of the loop for a face that is centered. *)
Definition process_face (frame gray : image) (face : Box) : Outcome :=
  let '(mkBox x y w h) := face in
  let roi_gray := slice gray y (y + h) x (x + w) in
  let roi_color := slice frame y (y + h) x (x + w) in
  let eyes := eye_cascade roi_gray in
  if Z.of_nat (List.length eyes) <? 2
  then Returns None (Some "Not enough eyes detected"%string)
  else
    let eye_boxes := sorted_by_x eyes in
    match eye_boxes with
    | left_eye :: right_eye :: _ =>
        Returns (Some (measure_eyes roi_color left_eye right_eye)) None
    | _ => Raises "IndexError"%string
    end.

(** Lines 93-163: the loop over the faces and the return that follows it. *)
Fixpoint process_faces (frame gray : image) (frame_width frame_height : Z)
    (faces : list Box) : Outcome :=
  match faces with
  | [] => Returns None (Some "No centered face found"%string)
  | face :: rest =>
      if negb (is_face_centered (bx face) (by_ face) (bw face) (bh face)
                 frame_width frame_height)
      then process_faces frame gray frame_width frame_height rest
      else process_face frame gray face
  end.

(** ** [process_frame] (lines 80-163) *)
Definition process_frame (frame : image) : Outcome :=
  let '(frame_height, frame_width) := shape frame in
  let gray := cvtColor_gray frame in
  let faces := face_cascade gray in
  if (Z.of_nat (List.length faces) =? 0)
  then Returns None (Some "No face detected"%string)
  else process_faces frame gray frame_width frame_height faces.

(** ** Names for the stages of one invocation

    These are read off [process_frame]; the lemmas below connect them to
    it. *)

Definition faces_of (frame : image) : list Box :=
  face_cascade (cvtColor_gray frame).

Definition centered_in (frame : image) (face : Box) : bool :=
  is_face_centered (bx face) (by_ face) (bw face) (bh face)
    (snd (shape frame)) (fst (shape frame)).

(** The first candidate, in detection order, that the validator accepts. *)
Definition accepted_face (frame : image) : option Box :=
  find (centered_in frame) (faces_of frame).

Definition face_roi_gray (frame : image) (face : Box) : image :=
  slice (cvtColor_gray frame)
    (by_ face) (by_ face + bh face) (bx face) (bx face + bw face).

Definition face_roi_color (frame : image) (face : Box) : image :=
  slice frame
    (by_ face) (by_ face + bh face) (bx face) (bx face + bw face).

Definition eyes_of (frame : image) (face : Box) : list Box :=
  eye_cascade (face_roi_gray frame face).

(** What the calibrator receives, when the invocation gets that far: the
    colour ROI of the accepted face and the two chosen eye boxes. *)
Definition calibrator_input (frame : image) : option (image * Box * Box) :=
  match accepted_face frame with
  | None => None
  | Some face =>
      match sorted_by_x (eyes_of frame face) with
      | left_eye :: right_eye :: _ =>
          Some (face_roi_color frame face, left_eye, right_eye)
      | _ => None
      end
  end.

(** The sub-features of lines 113-116, as the specification speaks of
    them: the iris boundaries of an eye are present when both are. *)
Definition iris_present (boundaries : option Z * option Z) : Prop :=
  fst boundaries <> None /\ snd boundaries <> None.

Definition iris_absent (boundaries : option Z * option Z) : Prop :=
  fst boundaries = None \/ snd boundaries = None.

Definition all_present (roi_color : image) (left_eye right_eye : Box) : Prop :=
  iris_present (detect_iris_boundaries (eye_roi_of roi_color left_eye))
  /\ iris_present (detect_iris_boundaries (eye_roi_of roi_color right_eye))
  /\ detect_pupil_center (eye_roi_of roi_color left_eye) <> None
  /\ detect_pupil_center (eye_roi_of roi_color right_eye) <> None.

Definition any_absent (roi_color : image) (left_eye right_eye : Box) : Prop :=
  iris_absent (detect_iris_boundaries (eye_roi_of roi_color left_eye))
  \/ iris_absent (detect_iris_boundaries (eye_roi_of roi_color right_eye))
  \/ detect_pupil_center (eye_roi_of roi_color left_eye) = None
  \/ detect_pupil_center (eye_roi_of roi_color right_eye) = None.

(** The guard of lines 118-119, as written. *)
Definition precise_guard (left_boundaries right_boundaries : option Z * option Z)
    (left_pupil right_pupil : option (Z * Z)) : Prop :=
  fst left_boundaries <> None /\ snd right_boundaries <> None
  /\ left_pupil <> None /\ right_pupil <> None.

(** The four ways an invocation ends. *)
Inductive Stage (frame : image) : Outcome -> Prop :=
| StageNoFace :
    faces_of frame = [] ->
    Stage frame (Returns None (Some "No face detected"%string))
| StageNoCenteredFace :
    faces_of frame <> [] ->
    accepted_face frame = None ->
    Stage frame (Returns None (Some "No centered face found"%string))
| StageNotEnoughEyes face :
    accepted_face frame = Some face ->
    (List.length (eyes_of frame face) < 2)%nat ->
    Stage frame (Returns None (Some "Not enough eyes detected"%string))
| StageMeasured face left_eye right_eye rest :
    accepted_face frame = Some face ->
    (2 <= List.length (eyes_of frame face))%nat ->
    sorted_by_x (eyes_of frame face) = left_eye :: right_eye :: rest ->
    Stage frame
      (Returns
         (Some (measure_eyes (face_roi_color frame face) left_eye right_eye))
         None).

End Pipeline.

(** ** A scripted world

    An instance of [OpenCV] in which the detectors answer
    from a script: an image is a view (origin and size) into a scene, slicing
    moves the view, and the detectors return what the scene lists.  It is
    used to run [process_frame] on concrete inputs. *)

Module Scripted.

Record View : Type := mkView { v_x : Z; v_y : Z; v_rows : Z; v_cols : Z }.

Record Scene : Type := mkScene {
  scene_rows : Z;
  scene_cols : Z;
  scene_faces : list Box;
  scene_eyes : list Box;
  (** the circles found in the view whose origin column is the first
      argument, by the detector whose [minRadius] is the second *)
  scene_circles : Z -> Z -> option (Circle * list Circle)
}.

Definition view_slice (v : View) (y0 y1 x0 x1 : Z) : View :=
  mkView (v_x v + x0) (v_y v + y0) (y1 - y0) (x1 - x0).

Definition frame_of (s : Scene) : View :=
  mkView 0 0 (scene_rows s) (scene_cols s).

Definition scripted (s : Scene) : OpenCV := {|
  image := View;
  shape := fun v => (v_rows v, v_cols v);
  cvtColor_gray := fun v => v;
  medianBlur := fun v _ => v;
  slice := view_slice;
  face_cascade := fun _ => scene_faces s;
  eye_cascade := fun _ => scene_eyes s;
  HoughCircles := fun v _ minRadius _ => scene_circles s (v_x v) minRadius
|}.

Definition run (s : Scene) : Outcome :=
  @process_frame (scripted s) (frame_of s).

Definition no_circles : Z -> Z -> option (Circle * list Circle) :=
  fun _ _ => None.

(** Scenario A of the specification: a 640x480 frame, one centered
    200x200 face, eye boxes at x=40 and x=130, both 30 wide, no circles. *)
Definition scenario_A : Scene :=
  mkScene 480 640 [mkBox 220 140 200 200]
    [mkBox 130 60 30 30; mkBox 40 60 30 30] no_circles.

(** A third eye box: the one furthest right is the one left out. *)
Definition three_eyes : Scene :=
  mkScene 480 640 [mkBox 220 140 200 200]
    [mkBox 130 60 30 30; mkBox 40 60 30 30; mkBox 100 20 30 30] no_circles.

(** Only one eye box. *)
Definition one_eye : Scene :=
  mkScene 480 640 [mkBox 220 140 200 200] [mkBox 40 60 30 30] no_circles.

(** A face at the left edge, then none at all. *)
Definition off_center : Scene :=
  mkScene 480 640 [mkBox 0 140 200 200]
    [mkBox 130 60 30 30; mkBox 40 60 30 30] no_circles.

Definition no_face : Scene :=
  mkScene 480 640 [] [] no_circles.

(** The boxes of scenario A with an iris circle (radius 8) and a pupil
    circle (radius 4) at local (15, 15) in both eye ROIs, whose origins
    are at columns 220 + 40 and 220 + 130 of the frame. *)
Definition with_circles : Scene :=
  mkScene 480 640 [mkBox 220 140 200 200]
    [mkBox 130 60 30 30; mkBox 40 60 30 30]
    (fun origin minRadius =>
       if (origin =? 260) || (origin =? 350)
       then if minRadius =? 5
            then Some ((15, 15, 8)%Q, [])
            else Some ((15, 15, 4)%Q, [])
       else None).

(** Two eye boxes at the same [x]: the distance between their centers
    is zero. *)
Definition same_x : Scene :=
  mkScene 480 640 [mkBox 220 140 200 200]
    [mkBox 40 60 30 30; mkBox 40 100 30 30] no_circles.

(** Two eye boxes that overlap by 20 columns. *)
Definition overlapping : Scene :=
  mkScene 480 640 [mkBox 220 140 200 200]
    [mkBox 40 60 40 40; mkBox 60 60 40 40] no_circles.

(** Two eye boxes, 12602 wide, that overlap by one column, in a
    32000x32000 frame. *)
Definition wide_overlap : Scene :=
  mkScene 32000 32000 [mkBox 3350 3350 25300 25300]
    [mkBox 0 5000 12602 12602; mkBox 12601 5000 12602 12602] no_circles.

(** Eye boxes 31 wide and 40 high, 63 columns apart. *)
Definition odd_width : Scene :=
  mkScene 480 640 [mkBox 220 140 200 200]
    [mkBox 40 60 31 40; mkBox 103 60 31 40] no_circles.

End Scripted.

(** ** The specification's formula for [b_size_mm], as it is worded (4.6) *)

Definition spec_b_size_mm (left_eye right_eye : Box) (ratio : Q) : Q :=
  round2
    (Qmax (Qmin (inject_Z (bh left_eye)) ((6 # 10) * inject_Z (bw left_eye)))
          (Qmin (inject_Z (bh right_eye)) ((6 # 10) * inject_Z (bw right_eye)))
     * ratio)%Q.

(** ** Rounding to two decimals, whatever the rule for ties

    [round2] is the exact counterpart of [round (x * ratio, 2)]: the code
    multiplies and rounds in binary64, and at a tie of the exact product
    its last digit can be the other neighbour.  [rounds_to v x] says what
    both satisfy: [v] has two decimals and is within half a hundredth of
    [x]. *)

Definition rounds_to (v x : Q) : Prop :=
  two_decimals v /\ (Qabs (v - x) <= 1 # 200)%Q.

(** ** The two calibration paths (lines 118-143)

    [PathPixels roi_color left_eye right_eye eye_pixels distance]: the
    pixel width of the eye and the inter-pupil pixel distance, read off the
    detector outputs and the eye boxes.  Lines 118-128, when the four
    values of line 118 are present: the span from the left eye's left iris
    boundary to the right eye's right iris boundary, and the right pupil's
    x minus the left pupil's x, each translated by its eye box's x.
    Lines 136-139, when one of the four is absent: the mean of the two box
    widths, and the distance between the two box centers. *)

Section Paths.

Context {cv : OpenCV}.

Inductive PathPixels (roi_color : image) (left_eye right_eye : Box)
    : Q -> Q -> Prop :=
| PrecisePixels (left_boundary right_boundary : Z) (left_pupil right_pupil : Z * Z) :
    all_present roi_color left_eye right_eye ->
    fst (detect_iris_boundaries (eye_roi_of roi_color left_eye))
    = Some left_boundary ->
    snd (detect_iris_boundaries (eye_roi_of roi_color right_eye))
    = Some right_boundary ->
    detect_pupil_center (eye_roi_of roi_color left_eye) = Some left_pupil ->
    detect_pupil_center (eye_roi_of roi_color right_eye) = Some right_pupil ->
    PathPixels roi_color left_eye right_eye
      (inject_Z ((bx right_eye + right_boundary)
                 - (bx left_eye + left_boundary)))
      (inject_Z ((bx right_eye + fst right_pupil)
                 - (bx left_eye + fst left_pupil)))
| ApproximatePixels :
    any_absent roi_color left_eye right_eye ->
    PathPixels roi_color left_eye right_eye
      (inject_Z (bw left_eye + bw right_eye) / 2)%Q
      ((inject_Z (bx right_eye) + inject_Z (bw right_eye) / 2)
       - (inject_Z (bx left_eye) + inject_Z (bw left_eye) / 2))%Q.

End Paths.

(** ** The same arithmetic in IEEE 754 binary64 *)

Module Binary64.

Import PrimFloat FloatOps SpecFloat.

(** A Python/numpy integer used where a float is: exact below [2 ^ 53]. *)
Definition of_int (z : Z) : float :=
  if z <? 0 then PrimFloat.opp (of_uint63 (Uint63.of_Z (- z)))
  else of_uint63 (Uint63.of_Z z).

(** [int (x)]: truncation towards zero; [None] for a NaN or an infinity,
    where Python raises. *)
Definition to_int (x : float) : option Z :=
  match Prim2SF x with
  | S754_zero _ => Some 0
  | S754_finite s m e =>
      let v := if 0 <=? e then Z.pos m * 2 ^ e else Z.pos m / 2 ^ (- e) in
      Some (if s then - v else v)
  | _ => None
  end.

(** [np.rint]: the nearest integer, ties to even, by adding and removing
    [2 ^ 52]. *)
Definition rint (x : float) : float :=
  let big := 0x1p52%float in
  if PrimFloat.ltb (PrimFloat.abs x) big
  then if PrimFloat.ltb x 0%float
       then PrimFloat.opp
              (PrimFloat.sub (PrimFloat.add (PrimFloat.opp x) big) big)
       else PrimFloat.sub (PrimFloat.add x big) big
  else x.

(** [round (x, 2)] on a [np.float64]: [np.rint (x * 100) / 100]. *)
Definition round2_b64 (x : float) : float :=
  PrimFloat.div (rint (PrimFloat.mul x 100%float)) 100%float.

(** The doubles nearest to [0.2], [0.3] and [0.6]. *)
Definition two_tenths : float := 0x1.999999999999ap-3%float.
Definition three_tenths : float := 0x1.3333333333333p-2%float.
Definition six_tenths : float := 0x1.3333333333333p-1%float.

(** [is_face_centered] (lines 20-32). *)
Definition is_face_centered_b64
    (face_x face_y face_w face_h frame_width frame_height : Z) : bool :=
  let center_x := face_x + face_w / 2 in
  let center_y := face_y + face_h / 2 in
  let tolerance_x := PrimFloat.mul (of_int frame_width) two_tenths in
  let tolerance_y := PrimFloat.mul (of_int frame_height) two_tenths in
  let min_face_height := PrimFloat.mul (of_int frame_height) three_tenths in
  (PrimFloat.ltb (PrimFloat.sub (of_int (frame_width / 2)) tolerance_x)
                 (of_int center_x)
   && PrimFloat.ltb (of_int center_x)
                    (PrimFloat.add (of_int (frame_width / 2)) tolerance_x))
  && (PrimFloat.ltb (PrimFloat.sub (of_int (frame_height / 2)) tolerance_y)
                    (of_int center_y)
      && PrimFloat.ltb (of_int center_y)
                       (PrimFloat.add (of_int (frame_height / 2)) tolerance_y))
  && PrimFloat.ltb min_face_height (of_int face_h).

(** Lines 151-152: [min (eye[3], int (eye[2] * 0.6))]. *)
Definition capped_eye_height_b64 (eye : Box) : option Z :=
  match to_int (PrimFloat.mul (of_int (bw eye)) six_tenths) with
  | Some q => Some (Z.min (bh eye) q)
  | None => None
  end.

(** Lines 136-154 on the approximate branch: the three fields, in the
    order [eye_width_mm], [bridge_width_mm], [b_size_mm]. *)
Definition measure_approximate_b64 (left_eye right_eye : Box)
    : option (float * float * float) :=
  let avg_eye_width :=
    PrimFloat.div (of_int (bw left_eye + bw right_eye)) 2%float in
  let left_center :=
    PrimFloat.add (of_int (bx left_eye))
                  (PrimFloat.div (of_int (bw left_eye)) 2%float) in
  let right_center :=
    PrimFloat.add (of_int (bx right_eye))
                  (PrimFloat.div (of_int (bw right_eye)) 2%float) in
  let interpupil := PrimFloat.sub right_center left_center in
  let ratio :=
    if PrimFloat.ltb 0%float interpupil
    then PrimFloat.div (of_int KNOWN_DISTANCE_MM) interpupil
    else 1%float in
  let eye_width := round2_b64 (PrimFloat.mul avg_eye_width ratio) in
  let bridge := bx right_eye - (bx left_eye + bw left_eye) in
  let bridge_width := round2_b64 (PrimFloat.mul (of_int bridge) ratio) in
  match capped_eye_height_b64 left_eye, capped_eye_height_b64 right_eye with
  | Some left_eye_height, Some right_eye_height =>
      let b_size := Z.max left_eye_height right_eye_height in
      Some (eye_width, bridge_width,
            round2_b64 (PrimFloat.mul (of_int b_size) ratio))
  | _, _ => None
  end.

(** Lines 121-133 and 146-154 on the precise branch, from the two eye
    boxes, the two iris boundaries and the x of the two pupils; the fields
    in the same order.  The ratio [1] of line 132 is an integer in Python;
    here it is the double [1.0], which denotes the same number. *)
Definition measure_precise_b64 (left_eye right_eye : Box)
    (left_boundary right_boundary left_pupil_x right_pupil_x : Z)
    : option (float * float * float) :=
  let eye_total_width_pixels :=
    (bx right_eye + right_boundary) - (bx left_eye + left_boundary) in
  let interpupil :=
    (bx right_eye + right_pupil_x) - (bx left_eye + left_pupil_x) in
  let ratio :=
    if 0 <? interpupil
    then PrimFloat.div (of_int KNOWN_DISTANCE_MM) (of_int interpupil)
    else 1%float in
  let eye_width :=
    round2_b64 (PrimFloat.mul (of_int eye_total_width_pixels) ratio) in
  let bridge := bx right_eye - (bx left_eye + bw left_eye) in
  let bridge_width := round2_b64 (PrimFloat.mul (of_int bridge) ratio) in
  match capped_eye_height_b64 left_eye, capped_eye_height_b64 right_eye with
  | Some left_eye_height, Some right_eye_height =>
      let b_size := Z.max left_eye_height right_eye_height in
      Some (eye_width, bridge_width,
            round2_b64 (PrimFloat.mul (of_int b_size) ratio))
  | _, _ => None
  end.

(** The integer [n] of a double that is the one nearest to [n / 100]: what
    a value with two decimals is among the doubles. *)
Definition hundredths (v : float) : option Z :=
  match to_int (rint (PrimFloat.mul v 100%float)) with
  | Some n =>
      if PrimFloat.eqb v (PrimFloat.div (of_int n) 100%float)
      then Some n
      else None
  | None => None
  end.

(** [rounds_to] for a double: it is the double of some [n / 100], and
    [n / 100] is within half a hundredth of [x]. *)
Definition rounds_to_b64 (v : float) (x : Q) : bool :=
  match hundredths v with
  | Some n => Qle_bool (Qabs (inject_Z n / 100 - x)) (1 # 200)
  | None => false
  end.

(** The three doubles of the approximate branch against the exact
    products of lines 136-154. *)
Definition approximate_agree (left_eye right_eye : Box) : bool :=
  match measure_approximate_b64 left_eye right_eye with
  | Some (eye_width, bridge_width, b_size) =>
      let ratio :=
        ratio_of_distance
          ((inject_Z (bx right_eye) + inject_Z (bw right_eye) / 2)
           - (inject_Z (bx left_eye) + inject_Z (bw left_eye) / 2)) in
      rounds_to_b64 eye_width
        (inject_Z (bw left_eye + bw right_eye) / 2 * ratio)
      && rounds_to_b64 bridge_width
           (inject_Z (bridge_distance_pixels left_eye right_eye) * ratio)
      && rounds_to_b64 b_size
           (inject_Z (b_size_pixels left_eye right_eye) * ratio)
  | None => false
  end.

(** The three doubles of the precise branch against the exact products of
    lines 121-133 and 146-154. *)
Definition precise_agree (left_eye right_eye : Box)
    (left_boundary right_boundary left_pupil_x right_pupil_x : Z) : bool :=
  match measure_precise_b64 left_eye right_eye
          left_boundary right_boundary left_pupil_x right_pupil_x with
  | Some (eye_width, bridge_width, b_size) =>
      let ratio :=
        ratio_of_distance
          (inject_Z ((bx right_eye + right_pupil_x)
                     - (bx left_eye + left_pupil_x))) in
      rounds_to_b64 eye_width
        (inject_Z ((bx right_eye + right_boundary)
                   - (bx left_eye + left_boundary)) * ratio)
      && rounds_to_b64 bridge_width
           (inject_Z (bridge_distance_pixels left_eye right_eye) * ratio)
      && rounds_to_b64 b_size
           (inject_Z (b_size_pixels left_eye right_eye) * ratio)
  | None => false
  end.

(** The integers [z], [z + 1], ..., [z + n - 1]. *)
Fixpoint upto (n : nat) (z : Z) : list Z :=
  match n with
  | O => []
  | S k => z :: upto k (z + 1)
  end.

(** The two models of [is_face_centered] on one input. *)
Definition centered_agree
    (face_x face_y face_w face_h frame_width frame_height : Z) : bool :=
  Bool.eqb
    (is_face_centered_b64 face_x face_y face_w face_h frame_width frame_height)
    (is_face_centered face_x face_y face_w face_h frame_width frame_height).

End Binary64.

From Stdlib Require Import Ascii.

(** ** [measure_api] (lines 165-191)

    Flask and the decoding libraries are not code of this program.  The
    value of [request.get_json ()] is the argument of [measure_api]; lines
    180-182 ([base64.b64decode], [np.frombuffer], [cv2.imdecode]) on a
    string are the field of the class [ImageCodec]; a reply records the
    object and the status that are handed to [jsonify], and
    [jsonify_measurement] says when [jsonify] raises instead. *)

(** A parsed JSON document, as the Python object [json.loads] builds: a
    dictionary is the list of its items (keys distinct), read by key. *)
#[warnings="-register-all"]
Inductive json : Type :=
| JNull
| JBool (b : bool)
| JNum (q : Q)
| JStr (s : string)
| JArr (items : list json)
| JObj (members : list (string * json)).

(** An evaluation that may raise. *)
Inductive result (A : Type) : Type :=
| Ok (value : A)
| Exn (name : string).

Arguments Ok {A} value.
Arguments Exn {A} name.

(** The truth value of a Python object ([not data]). *)
Definition truthy (v : json) : bool :=
  match v with
  | JNull => false
  | JBool b => b
  | JNum q => negb (Qeq_bool q 0)
  | JStr s => negb (String.eqb s EmptyString)
  | JArr items => match items with [] => false | _ :: _ => true end
  | JObj members => match members with [] => false | _ :: _ => true end
  end.

(** [needle in hay] on two strings. *)
Fixpoint contains (needle hay : string) : bool :=
  String.prefix needle hay
  || match hay with
     | EmptyString => false
     | String _ rest => contains needle rest
     end.

(** [v == key] for a string [key]. *)
Definition is_str (key : string) (v : json) : bool :=
  match v with
  | JStr s => String.eqb s key
  | _ => false
  end.

(** [key in container]: keys of a dictionary, elements of a list,
    substrings of a string; [TypeError] for what is not iterable. *)
Definition py_in (key : string) (container : json) : result bool :=
  match container with
  | JObj members => Ok (existsb (fun kv => String.eqb (fst kv) key) members)
  | JArr items => Ok (existsb (is_str key) items)
  | JStr s => Ok (contains key s)
  | JNull | JBool _ | JNum _ => Exn "TypeError"%string
  end.

(** [container[key]] for a string [key]. *)
Definition py_getitem (key : string) (container : json) : result json :=
  match container with
  | JObj members =>
      match find (fun kv => String.eqb (fst kv) key) members with
      | Some kv => Ok (snd kv)
      | None => Exn "KeyError"%string
      end
  | _ => Exn "TypeError"%string
  end.

(** [s.split (sep)] for a separator of one character. *)
Fixpoint split (sep : ascii) (s : string) : list string :=
  match s with
  | EmptyString => [EmptyString]
  | String c rest =>
      if Ascii.eqb c sep
      then EmptyString :: split sep rest
      else match split sep rest with
           | piece :: pieces => String c piece :: pieces
           | [] => [String c EmptyString]
           end
  end.

Definition comma : ascii := Ascii.ascii_of_nat 44.

(** Lines 177-178 on a string: [s.split (",")[1]] when ["," in s]. *)
Definition strip_header (s : string) : result string :=
  if contains ","%string s
  then match nth_error (split comma s) 1 with
       | Some piece => Ok piece
       | None => Exn "IndexError"%string
       end
  else Ok s.

(** Lines 177-178 on any object. *)
Definition strip_header_of (img_data : json) : result json :=
  match py_in ","%string img_data with
  | Exn e => Exn e
  | Ok false => Ok img_data
  | Ok true =>
      match img_data with
      | JStr s =>
          match strip_header s with
          | Ok piece => Ok (JStr piece)
          | Exn e => Exn e
          end
      | _ => Exn "AttributeError"%string
      end
  end.

(** What [measure_api] hands to [jsonify]. *)
Inductive Body : Type :=
| ErrorBody (error : string)
| MeasurementBody (measurement : option Measurement).

Inductive ApiOutcome : Type :=
| Replies (body : Body) (status : Z)
| ApiRaises (exn : string).

(** The three messages of [process_frame], and the five of [measure_api]. *)
Definition pipeline_messages : list string :=
  ["No face detected"%string; "No centered face found"%string;
   "Not enough eyes detected"%string].

Definition api_messages : list string :=
  "No image provided."%string :: "Could not decode image."%string
  :: pipeline_messages.

(** Lines 180-182 on a string: [None] when one of the three calls raises,
    [Some None] when [cv2.imdecode] returns [None], [Some (Some frame)]
    otherwise. *)
Class ImageCodec {cv : OpenCV} : Type := {
  decode_image : string -> option (option image)
}.

Section Api.

Context {cv : OpenCV} {codec : ImageCodec}.

(** The [try] block of lines 179-184: [base64.b64decode] raises
    [TypeError] on what is neither a string nor bytes. *)
Definition decode_frame (img_data : json) : option (option image) :=
  match img_data with
  | JStr s => decode_image s
  | _ => None
  end.

(** [process_frame (frame)] when [frame] may be [None]: line 85 reads
    [frame.shape]. *)
Definition process_decoded (frame : option image) : Outcome :=
  match frame with
  | Some frame => process_frame frame
  | None => Raises "AttributeError"%string
  end.

(** Whether the dictionary of lines 156-160 holds a numpy integer.
    [bridge_distance_pixels] is an [np.int32]; [n * pixel_to_mm_ratio] and
    [round (_, 2)] keep it one exactly when the ratio is the Python integer
    [1] of lines 132 and 143, that is when the distance is not positive.
    With the ratio [63 / distance] every field is an [np.float64]. *)
Definition integer_fields (frame : image) : bool :=
  match calibrator_input frame with
  | Some (roi_color, left_eye, right_eye) =>
      negb (Qltb 0
              (interpupil_distance_pixels
                 (calibration_of roi_color left_eye right_eye)))
  | None => false
  end.

(** [return jsonify (measurement)] (line 191): Flask's JSON provider
    raises [TypeError] on a numpy integer; an [np.float64] is a Python
    float and is serialised. *)
Definition jsonify_measurement (frame : option image)
    (measurement : option Measurement) : ApiOutcome :=
  match frame with
  | Some frame =>
      if integer_fields frame
      then ApiRaises "TypeError"%string
      else Replies (MeasurementBody measurement) 200
  | None => Replies (MeasurementBody measurement) 200
  end.

(** Lines 186-191; [if error_msg:] holds for a string that is not
    empty. *)
Definition reply_of (frame : option image) : ApiOutcome :=
  match process_decoded frame with
  | Raises e => ApiRaises e
  | Returns measurement error_msg =>
      match error_msg with
      | Some msg =>
          if negb (String.eqb msg EmptyString)
          then Replies (ErrorBody msg) 400
          else jsonify_measurement frame measurement
      | None => jsonify_measurement frame measurement
      end
  end.

Definition measure_api (data : json) : ApiOutcome :=
  if negb (truthy data)
  then Replies (ErrorBody "No image provided."%string) 400
  else
    match py_in "image"%string data with
    | Exn e => ApiRaises e
    | Ok false => Replies (ErrorBody "No image provided."%string) 400
    | Ok true =>
        match py_getitem "image"%string data with
        | Exn e => ApiRaises e
        | Ok img_data =>
            match strip_header_of img_data with
            | Exn e => ApiRaises e
            | Ok img_data =>
                match decode_frame img_data with
                | None => Replies (ErrorBody "Could not decode image."%string) 400
                | Some frame => reply_of frame
                end
            end
        end
    end.

End Api.

(** A codec for the scripted scenes: the text [frame] decodes to the frame
    of the scene, the text [junk] to a buffer that [cv2.imdecode] gives up
    on, and anything else makes the decoding raise. *)
Module ScriptedApi.

Definition codec (s : Scripted.Scene) : @ImageCodec (Scripted.scripted s) := {|
  decode_image := fun text =>
    if String.eqb text "frame"%string
    then Some (Some (Scripted.frame_of s : @image (Scripted.scripted s)))
    else if String.eqb text "junk"%string then Some None else None
|}.

Definition post (s : Scripted.Scene) (data : json) : ApiOutcome :=
  @measure_api (Scripted.scripted s) (codec s) data.

(** A request body [{"image": text}]. *)
Definition body_of (text : string) : json :=
  JObj [("image"%string, JStr text)].

(** Three candidate faces: one at the left edge, then two centered ones;
    a single eye box in every face ROI. *)
Definition crowded : Scripted.Scene :=
  Scripted.mkScene 480 640
    [mkBox 0 140 200 200; mkBox 220 140 200 200; mkBox 230 140 200 200]
    [mkBox 40 60 30 30] Scripted.no_circles.

End ScriptedApi.

(** * Properties *)

(** ** Arithmetic of the numeric helpers *)

Lemma Qltb_lt (a b : Q) : Qltb a b = true <-> (a < b)%Q.
Proof. unfold Qltb, Qlt. apply Z.ltb_lt. Qed.

Lemma Qltb_ge (a b : Q) : Qltb a b = false <-> (b <= a)%Q.
Proof. unfold Qltb, Qle. apply Z.ltb_ge. Qed.

#[export] Instance round_half_even_comp : Proper (Qeq ==> eq) round_half_even.
Proof.
  intros x y E. unfold round_half_even.
  rewrite (Qfloor_comp x y E).
  assert (C : ((x - inject_Z (Qfloor y)) ?= (1 # 2))%Q
              = ((y - inject_Z (Qfloor y)) ?= (1 # 2))%Q)
    by (apply Qcompare_comp; [rewrite E|]; reflexivity).
  rewrite C. reflexivity.
Qed.

#[export] Instance round2_comp : Proper (Qeq ==> Qeq) round2.
Proof. intros x y E. unfold round2. rewrite E. reflexivity. Qed.

(** The fractional part that [round_half_even] compares with one half. *)
Lemma floor_frac (q : Q) :
  (0 <= q - inject_Z (Qfloor q) /\ q - inject_Z (Qfloor q) < 1)%Q.
Proof.
  pose proof (Qfloor_le q) as L. pose proof (Qlt_floor q) as U.
  rewrite inject_Z_plus in U. change (inject_Z 1) with 1%Q in U. split; lra.
Qed.

Lemma round_half_even_Z (z : Z) : round_half_even (inject_Z z) = z.
Proof.
  unfold round_half_even. rewrite Qfloor_Z.
  assert (C : ((inject_Z z - inject_Z z) ?= (1 # 2))%Q = Lt)
    by (rewrite <- Qlt_alt; lra).
  rewrite C. reflexivity.
Qed.

(** [round_half_even] is within one half of its argument. *)
Lemma round_half_even_near (q : Q) :
  (q - (1 # 2) <= inject_Z (round_half_even q)
   /\ inject_Z (round_half_even q) <= q + (1 # 2))%Q.
Proof.
  unfold round_half_even.
  destruct (floor_frac q) as [L U]. set (f := Qfloor q) in *.
  destruct (Qcompare_spec (q - inject_Z f) (1 # 2)) as [E | E | E].
  - destruct (Z.even f);
      [| rewrite inject_Z_plus; change (inject_Z 1) with 1%Q]; split; lra.
  - split; lra.
  - rewrite inject_Z_plus. change (inject_Z 1) with 1%Q. split; lra.
Qed.

(** It is negative exactly below minus one half: the tie [-1/2] goes to the
    even neighbour [0]. *)
Lemma round_half_even_neg (q : Q) :
  round_half_even q < 0 <-> (q < - (1 # 2))%Q.
Proof.
  unfold round_half_even.
  destruct (floor_frac q) as [L U]. set (f := Qfloor q) in *.
  destruct (Z_lt_le_dec f (-1)) as [F | F].
  - (* f <= -2 *)
    assert (Q2 : (inject_Z f <= inject_Z (-2))%Q)
      by (rewrite <- Zle_Qle; lia).
    change (inject_Z (-2)) with (- (2 # 1))%Q in Q2.
    split; [intros _; lra |intros _].
    destruct (Qcompare_spec (q - inject_Z f) (1 # 2));
      try destruct (Z.even f); lia.
  - destruct (Z.eq_dec f (-1)) as [F1 | F1].
    + assert (Q1 : (inject_Z f == - (1 # 1))%Q) by (rewrite F1; reflexivity).
      destruct (Qcompare_spec (q - inject_Z f) (1 # 2)) as [E | E | E].
      * rewrite F1. cbn. split; [lia | lra].
      * split; [lra | lia].
      * split; [lia | lra].
    + assert (Q0 : (inject_Z 0 <= inject_Z f)%Q)
        by (rewrite <- Zle_Qle; lia).
      change (inject_Z 0) with 0%Q in Q0.
      split; [| lra].
      destruct (Qcompare_spec (q - inject_Z f) (1 # 2));
        try destruct (Z.even f); lia.
Qed.

Lemma round_half_even_nonneg (q : Q) :
  (0 <= q)%Q -> 0 <= round_half_even q.
Proof.
  intros H. destruct (Z_lt_le_dec (round_half_even q) 0) as [N | N]; [| exact N].
  apply round_half_even_neg in N. lra.
Qed.

Lemma round_half_even_nonpos (q : Q) :
  (q <= 0)%Q -> round_half_even q <= 0.
Proof.
  intros H. pose proof (round_half_even_near q) as [_ U].
  assert (B : (inject_Z (round_half_even q) < inject_Z 1)%Q)
    by (change (inject_Z 1) with 1%Q; lra).
  rewrite <- Zlt_Qlt in B. lia.
Qed.

(** [round (x, 2)] and signs. *)
Lemma round2_neg (x : Q) : (round2 x < 0)%Q <-> (x < - (1 # 200))%Q.
Proof.
  unfold round2.
  assert (S : (inject_Z (round_half_even (x * 100)) / 100 < 0
               <-> inject_Z (round_half_even (x * 100)) < inject_Z 0)%Q).
  { change (inject_Z 0) with 0%Q.
    split; intros H.
    - apply Qnot_le_lt. intros G. apply (Qlt_not_le _ _ H).
      apply Qle_shift_div_l; lra.
    - apply Qlt_shift_div_r; lra. }
  rewrite S, <- Zlt_Qlt, round_half_even_neg. split; intros; lra.
Qed.

Lemma round2_nonneg (x : Q) : (0 <= x)%Q -> (0 <= round2 x)%Q.
Proof.
  intros H. apply Qnot_lt_le. intros N. apply round2_neg in N. lra.
Qed.

Lemma round2_nonpos (x : Q) : (x <= 0)%Q -> (round2 x <= 0)%Q.
Proof.
  intros H. unfold round2.
  assert (B : round_half_even (x * 100) <= 0)
    by (apply round_half_even_nonpos; lra).
  rewrite Zle_Qle in B. change (inject_Z 0) with 0%Q in B.
  apply Qle_shift_div_r; lra.
Qed.

(** An integer number of pixels, or of half pixels, is its own rounding. *)
Lemma round2_Z (z : Z) : (round2 (inject_Z z) == inject_Z z)%Q.
Proof.
  unfold round2.
  assert (E : (inject_Z z * 100 == inject_Z (z * 100))%Q)
    by (rewrite inject_Z_mult; reflexivity).
  rewrite E, round_half_even_Z, inject_Z_mult. field.
Qed.

Lemma round2_half (z : Z) : (round2 (inject_Z z / 2) == inject_Z z / 2)%Q.
Proof.
  unfold round2.
  assert (E : (inject_Z z / 2 * 100 == inject_Z (z * 50))%Q)
    by (rewrite inject_Z_mult; field).
  rewrite E, round_half_even_Z, inject_Z_mult. field.
Qed.

Lemma round2_two_decimals (x : Q) : two_decimals (round2 x).
Proof. exists (round_half_even (x * 100)). reflexivity. Qed.

(** [int (w * 0.6)] is the integer quotient of [3 * w] by [5], truncated
    towards zero. *)
Lemma int_of_float_six_tenths (w : Z) :
  int_of_float (inject_Z w * (6 # 10)) = Z.quot (3 * w) 5.
Proof.
  unfold int_of_float, Qltb, Qceiling, Qfloor, Qopp, Qmult, inject_Z.
  cbn [Qnum Qden].
  change (Z.pos (1 * 10)) with (5 * 2).
  replace (w * 6) with (3 * w * 2) by lia.
  destruct (3 * w * 2 * 1 <? 0 * (5 * 2)) eqn:S.
  - apply Z.ltb_lt in S.
    replace (- (3 * w * 2)) with (- (3 * w) * 2) by lia.
    rewrite Z.div_mul_cancel_r by lia.
    rewrite <- (Z.quot_div_nonneg (- (3 * w)) 5) by lia.
    rewrite Z.quot_opp_l by lia. lia.
  - apply Z.ltb_ge in S.
    rewrite Z.div_mul_cancel_r by lia.
    symmetry. apply Z.quot_div_nonneg; lia.
Qed.

(** ** The stable sort by [x] *)

Lemma insert_by_x_perm (b : Box) (l : list Box) :
  Permutation (b :: l) (insert_by_x b l).
Proof.
  induction l as [| c t IH]; cbn; [reflexivity |].
  destruct (bx c <? bx b); [| reflexivity].
  rewrite perm_swap. apply perm_skip, IH.
Qed.

Lemma sorted_by_x_perm (l : list Box) : Permutation l (sorted_by_x l).
Proof.
  induction l as [| b t IH]; cbn; [constructor |].
  rewrite <- insert_by_x_perm. apply perm_skip, IH.
Qed.

Lemma sorted_by_x_length (l : list Box) :
  List.length (sorted_by_x l) = List.length l.
Proof. symmetry. apply Permutation_length, sorted_by_x_perm. Qed.

Lemma insert_by_x_sorted (b : Box) (l : list Box) :
  StronglySorted le_x l -> StronglySorted le_x (insert_by_x b l).
Proof.
  induction 1 as [| c t St IH Hc]; cbn.
  - repeat constructor.
  - destruct (bx c <? bx b) eqn:E.
    + apply Z.ltb_lt in E. constructor; [exact IH |].
      rewrite <- (insert_by_x_perm b t). constructor; [unfold le_x; lia | exact Hc].
    + apply Z.ltb_ge in E. constructor; [constructor; assumption |].
      constructor; [exact E |].
      eapply Forall_impl; [| exact Hc]. unfold le_x. intros; lia.
Qed.

Lemma sorted_by_x_sorted (l : list Box) : StronglySorted le_x (sorted_by_x l).
Proof.
  induction l as [| b t IH]; cbn; [constructor | now apply insert_by_x_sorted].
Qed.

(** Stability: boxes with the same [x] keep the order of detection. *)
Lemma insert_by_x_filter (k : Z) (b : Box) (l : list Box) :
  filter (fun c => bx c =? k) (insert_by_x b l)
  = filter (fun c => bx c =? k) (b :: l).
Proof.
  induction l as [| c t IH]; [reflexivity |].
  cbn [insert_by_x]. destruct (bx c <? bx b) eqn:E; [| reflexivity].
  apply Z.ltb_lt in E. cbn [filter] in *. rewrite IH.
  destruct (bx c =? k) eqn:Ec, (bx b =? k) eqn:Eb; try reflexivity.
  apply Z.eqb_eq in Ec, Eb. lia.
Qed.

Lemma sorted_by_x_stable (k : Z) (l : list Box) :
  filter (fun c => bx c =? k) (sorted_by_x l) = filter (fun c => bx c =? k) l.
Proof.
  induction l as [| b t IH]; [reflexivity |].
  cbn [sorted_by_x]. rewrite insert_by_x_filter. cbn [filter].
  rewrite IH. reflexivity.
Qed.

(** With two boxes or more, the sorted list has a first and a second box,
    in ascending order, and nothing after them lies further left. *)
Lemma sorted_by_x_two (l : list Box) :
  (2 <= List.length l)%nat ->
  exists left_eye right_eye rest,
    sorted_by_x l = left_eye :: right_eye :: rest
    /\ Permutation l (left_eye :: right_eye :: rest)
    /\ bx left_eye <= bx right_eye
    /\ Forall (fun b => bx right_eye <= bx b) rest.
Proof.
  intros H. pose proof (sorted_by_x_length l) as L.
  pose proof (sorted_by_x_perm l) as P.
  pose proof (sorted_by_x_sorted l) as S.
  destruct (sorted_by_x l) as [| a [| b rest]]; cbn in L; try lia.
  exists a, b, rest. repeat split; [exact P | |].
  - inversion S as [| ? ? _ Ha]; subst. inversion Ha; subst. assumption.
  - inversion S as [| ? ? Sb _]; subst. inversion Sb; subst. assumption.
Qed.

(** ** The stages of [process_frame] *)

Section Stages.

Context {cv : OpenCV}.

(** The loop of lines 93-163 stops at the first centered face. *)
Lemma process_faces_find (frame gray : image) (faces : list Box) :
  process_faces frame gray (snd (shape frame)) (fst (shape frame)) faces
  = match find (centered_in frame) faces with
    | Some face => process_face frame gray face
    | None => Returns None (Some "No centered face found"%string)
    end.
Proof.
  induction faces as [| face rest IH]; [reflexivity |].
  cbn [process_faces find]. fold (centered_in frame face).
  destruct (centered_in frame face); cbn [negb]; [reflexivity | exact IH].
Qed.

Lemma process_face_eyes (frame : image) (face : Box) :
  process_face frame (cvtColor_gray frame) face
  = if Z.of_nat (List.length (eyes_of frame face)) <? 2
    then Returns None (Some "Not enough eyes detected"%string)
    else match sorted_by_x (eyes_of frame face) with
         | left_eye :: right_eye :: _ =>
             Returns
               (Some (measure_eyes (face_roi_color frame face) left_eye right_eye))
               None
         | _ => Raises "IndexError"%string
         end.
Proof. destruct face; reflexivity. Qed.

Lemma process_frame_stages (frame : image) :
  process_frame frame
  = match faces_of frame with
    | [] => Returns None (Some "No face detected"%string)
    | _ :: _ =>
        match accepted_face frame with
        | Some face => process_face frame (cvtColor_gray frame) face
        | None => Returns None (Some "No centered face found"%string)
        end
    end.
Proof.
  unfold process_frame, accepted_face, faces_of.
  pose proof (process_faces_find frame (cvtColor_gray frame)
                (face_cascade (cvtColor_gray frame))) as F.
  destruct (shape frame) as [frame_height frame_width]. cbn [fst snd] in F.
  destruct (face_cascade (cvtColor_gray frame)) as [| face rest] eqn:E;
    [reflexivity |].
  cbn [List.length]. rewrite <- E in *.
  replace (Z.of_nat (S (List.length rest)) =? 0) with false
    by (symmetry; apply Z.eqb_neq; lia).
  exact F.
Qed.

Lemma process_frame_stage (frame : image) :
  Stage frame (process_frame frame).
Proof.
  rewrite process_frame_stages.
  destruct (faces_of frame) as [| f0 fs] eqn:F.
  - now constructor.
  - destruct (accepted_face frame) as [face |] eqn:A.
    + rewrite process_face_eyes.
      destruct (Z.of_nat (List.length (eyes_of frame face)) <? 2) eqn:L.
      * apply Z.ltb_lt in L. apply (StageNotEnoughEyes frame face); [exact A | lia].
      * apply Z.ltb_ge in L.
        destruct (sorted_by_x_two (eyes_of frame face)) as (l & r & rest & S & _);
          [lia |].
        rewrite S. apply (StageMeasured frame face l r rest); [exact A | lia | exact S].
    + constructor; [rewrite F; discriminate | exact A].
Qed.

(** An accepted face is one of the candidates, so there is a candidate. *)
Lemma accepted_face_detected (frame : image) (face : Box) :
  accepted_face frame = Some face ->
  In face (faces_of frame) /\ centered_in frame face = true.
Proof. unfold accepted_face. apply find_some. Qed.

Lemma accepted_face_none (frame : image) :
  accepted_face frame = None
  <-> forall face, In face (faces_of frame) -> centered_in frame face = false.
Proof.
  unfold accepted_face. split.
  - intros H face. revert face. apply find_none. exact H.
  - intros H. induction (faces_of frame) as [| f fs IH]; [reflexivity |].
    cbn [find]. rewrite (H f (or_introl eq_refl)).
    apply IH. intros face Hin. apply H. now right.
Qed.

(** Reaching the calibrator is the fourth way, and only that one. *)
Lemma calibrator_input_measured (frame roi_color : image) (left_eye right_eye : Box) :
  calibrator_input frame = Some (roi_color, left_eye, right_eye) ->
  process_frame frame
  = Returns (Some (measure_eyes roi_color left_eye right_eye)) None.
Proof.
  unfold calibrator_input. intros H.
  destruct (process_frame_stage frame) as [F | F A | face A L | face l r rest A L S].
  - unfold accepted_face in H. rewrite F in H. discriminate.
  - rewrite A in H. discriminate.
  - rewrite A in H. rewrite <- sorted_by_x_length in L.
    destruct (sorted_by_x (eyes_of frame face)) as [| a [| b t]];
      try discriminate; cbn in L; lia.
  - rewrite A, S in H. inversion H; subst. reflexivity.
Qed.

Lemma measured_calibrator_input (frame : image) (m : Measurement) :
  process_frame frame = Returns (Some m) None ->
  exists roi_color left_eye right_eye,
    calibrator_input frame = Some (roi_color, left_eye, right_eye)
    /\ m = measure_eyes roi_color left_eye right_eye.
Proof.
  intros H. unfold calibrator_input.
  destruct (process_frame_stage frame) as [F | F A | face A L | face l r rest A L S];
    try discriminate.
  inversion H; subst. rewrite A, S. eauto.
Qed.

End Stages.

(** Runs of the scripted scenes. *)

Example scenario_A_runs :
  Scripted.run Scripted.scenario_A
  = Returns (Some (mkMeasurement (2100 / 100) (4200 / 100) (1260 / 100))%Q) None.
Proof. vm_compute. reflexivity. Qed.

Example with_circles_runs :
  Scripted.run Scripted.with_circles
  = Returns (Some (mkMeasurement (7420 / 100) (4200 / 100) (1260 / 100))%Q) None.
Proof. vm_compute. reflexivity. Qed.

Example same_x_runs :
  Scripted.run Scripted.same_x
  = Returns (Some (mkMeasurement (3000 / 100) (-3000 / 100) (1800 / 100))%Q) None.
Proof. vm_compute. reflexivity. Qed.

Example overlapping_runs :
  Scripted.run Scripted.overlapping
  = Returns (Some (mkMeasurement (12600 / 100) (-6300 / 100) (7560 / 100))%Q) None.
Proof. vm_compute. reflexivity. Qed.

Example wide_overlap_runs :
  Scripted.run Scripted.wide_overlap
  = Returns (Some (mkMeasurement (6300 / 100) (0 / 100) (3780 / 100))%Q) None.
Proof. vm_compute. reflexivity. Qed.

Example odd_width_runs :
  Scripted.run Scripted.odd_width
  = Returns (Some (mkMeasurement (3100 / 100) (3200 / 100) (1800 / 100))%Q) None.
Proof. vm_compute. reflexivity. Qed.

Example one_eye_runs :
  Scripted.run Scripted.one_eye
  = Returns None (Some "Not enough eyes detected"%string).
Proof. vm_compute. reflexivity. Qed.

Example off_center_runs :
  Scripted.run Scripted.off_center
  = Returns None (Some "No centered face found"%string).
Proof. vm_compute. reflexivity. Qed.

Example no_face_runs :
  Scripted.run Scripted.no_face
  = Returns None (Some "No face detected"%string).
Proof. vm_compute. reflexivity. Qed.

(** ** The calibration block *)

Section Calibration.

Context {cv : OpenCV}.

(** [detect_iris_boundaries] returns two integers or two [None]s. *)
Lemma detect_iris_boundaries_both (eye_roi : image) :
  (fst (detect_iris_boundaries eye_roi) = None
   /\ snd (detect_iris_boundaries eye_roi) = None)
  \/ (fst (detect_iris_boundaries eye_roi) <> None
      /\ snd (detect_iris_boundaries eye_roi) <> None).
Proof.
  unfold detect_iris_boundaries.
  destruct (iris_circles eye_roi) as [circles |]; [right | left].
  - destruct (first_circle circles) as [[x y] r]. split; discriminate.
  - split; reflexivity.
Qed.

(** The branch taken is decided by the guard of lines 118-119. *)
Lemma calibrate_path (left_eye right_eye : Box)
    (left_boundaries right_boundaries : option Z * option Z)
    (left_pupil right_pupil : option (Z * Z)) :
  cal_path (calibrate left_eye right_eye
              left_boundaries right_boundaries left_pupil right_pupil)
  = Precise
  <-> precise_guard left_boundaries right_boundaries left_pupil right_pupil.
Proof.
  unfold calibrate, precise_guard.
  destruct (fst left_boundaries), (snd right_boundaries),
    left_pupil, right_pupil; cbn;
    (split; [intros H; try discriminate; repeat split; discriminate
            | intros (A & B & C & D); try reflexivity; congruence]).
Qed.

(** In both branches the ratio comes from the distance, and the eye width
    from the pixel width and the ratio. *)
Lemma calibrate_ratio (left_eye right_eye : Box)
    (left_boundaries right_boundaries : option Z * option Z)
    (left_pupil right_pupil : option (Z * Z)) :
  let cal := calibrate left_eye right_eye
               left_boundaries right_boundaries left_pupil right_pupil in
  pixel_to_mm_ratio cal = ratio_of_distance (interpupil_distance_pixels cal)
  /\ cal_eye_width_mm cal
     = round2 (cal_eye_pixels cal * pixel_to_mm_ratio cal).
Proof.
  unfold calibrate.
  destruct (fst left_boundaries), (snd right_boundaries),
    left_pupil, right_pupil; cbn; split; reflexivity.
Qed.

(** What the approximate branch computes. *)
Lemma calibrate_approximate (left_eye right_eye : Box)
    (left_boundaries right_boundaries : option Z * option Z)
    (left_pupil right_pupil : option (Z * Z)) :
  let cal := calibrate left_eye right_eye
               left_boundaries right_boundaries left_pupil right_pupil in
  cal_path cal = Approximate ->
  cal_eye_pixels cal = (inject_Z (bw left_eye + bw right_eye) / 2)%Q
  /\ interpupil_distance_pixels cal
     = ((inject_Z (bx right_eye) + inject_Z (bw right_eye) / 2)
        - (inject_Z (bx left_eye) + inject_Z (bw left_eye) / 2))%Q.
Proof.
  unfold calibrate.
  destruct (fst left_boundaries), (snd right_boundaries),
    left_pupil, right_pupil; cbn; intros H;
    try discriminate; split; reflexivity.
Qed.

(** What the precise branch computes. *)
Lemma calibrate_precise (left_eye right_eye : Box)
    (left_boundaries right_boundaries : option Z * option Z)
    (left_pupil right_pupil : option (Z * Z)) :
  let cal := calibrate left_eye right_eye
               left_boundaries right_boundaries left_pupil right_pupil in
  cal_path cal = Precise ->
  exists left_boundary right_boundary left_xy right_xy,
    fst left_boundaries = Some left_boundary
    /\ snd right_boundaries = Some right_boundary
    /\ left_pupil = Some left_xy /\ right_pupil = Some right_xy
    /\ cal_eye_pixels cal
       = inject_Z ((bx right_eye + right_boundary)
                   - (bx left_eye + left_boundary))
    /\ interpupil_distance_pixels cal
       = inject_Z ((bx right_eye + fst right_xy)
                   - (bx left_eye + fst left_xy)).
Proof.
  unfold calibrate.
  destruct (fst left_boundaries) as [lb |], (snd right_boundaries) as [rb |],
    left_pupil as [lp |], right_pupil as [rp |]; cbn; intros H;
    try discriminate.
  exists lb, rb, lp, rp. repeat split; reflexivity.
Qed.

Lemma ratio_of_distance_pos (d : Q) : (0 < ratio_of_distance d)%Q.
Proof.
  unfold ratio_of_distance. destruct (Qltb 0 d) eqn:E; [| reflexivity].
  apply Qltb_lt in E. apply Qlt_shift_div_l; [exact E |].
  unfold KNOWN_DISTANCE_MM. change (inject_Z 63) with 63%Q. lra.
Qed.

Lemma calibration_ratio_pos (roi_color : image) (left_eye right_eye : Box) :
  (0 < pixel_to_mm_ratio (calibration_of roi_color left_eye right_eye))%Q.
Proof.
  unfold calibration_of.
  rewrite (proj1 (calibrate_ratio _ _ _ _ _ _)). apply ratio_of_distance_pos.
Qed.

(** The guard looks at one boundary of each eye; that is enough. *)
Lemma precise_guard_all_present (roi_color : image) (left_eye right_eye : Box) :
  precise_guard
    (detect_iris_boundaries (eye_roi_of roi_color left_eye))
    (detect_iris_boundaries (eye_roi_of roi_color right_eye))
    (detect_pupil_center (eye_roi_of roi_color left_eye))
    (detect_pupil_center (eye_roi_of roi_color right_eye))
  <-> all_present roi_color left_eye right_eye.
Proof.
  unfold precise_guard, all_present, iris_present.
  destruct (detect_iris_boundaries_both (eye_roi_of roi_color left_eye))
    as [[L1 L2] | [L1 L2]];
  destruct (detect_iris_boundaries_both (eye_roi_of roi_color right_eye))
    as [[R1 R2] | [R1 R2]]; tauto.
Qed.

Lemma all_present_or_absent (roi_color : image) (left_eye right_eye : Box) :
  any_absent roi_color left_eye right_eye
  <-> ~ all_present roi_color left_eye right_eye.
Proof.
  unfold any_absent, all_present, iris_absent, iris_present.
  destruct (fst (detect_iris_boundaries (eye_roi_of roi_color left_eye))),
    (snd (detect_iris_boundaries (eye_roi_of roi_color left_eye))),
    (fst (detect_iris_boundaries (eye_roi_of roi_color right_eye))),
    (snd (detect_iris_boundaries (eye_roi_of roi_color right_eye))),
    (detect_pupil_center (eye_roi_of roi_color left_eye)),
    (detect_pupil_center (eye_roi_of roi_color right_eye));
    split;
    try (intros H (A & B & C & D); destruct A, B; 
         destruct H as [[?|?]|[[?|?]|[?|?]]]; congruence);
    try (intros H; try (exfalso; apply H; repeat split; discriminate);
         tauto).
Qed.

End Calibration.

(** ** Rounding and the two paths *)

Lemma round2_rounds_to (x : Q) : rounds_to (round2 x) x.
Proof.
  split; [apply round2_two_decimals |].
  unfold round2. destruct (round_half_even_near (x * 100)) as [L U].
  apply Qabs_Qle_condition. split.
  - apply (Qplus_le_l _ _ x). ring_simplify.
    apply Qle_shift_div_l; [reflexivity |]. lra.
  - apply (Qplus_le_l _ _ x). ring_simplify.
    apply Qle_shift_div_r; [reflexivity |]. lra.
Qed.

Lemma rounds_to_comp (v x y : Q) : (x == y)%Q -> rounds_to v x -> rounds_to v y.
Proof.
  intros E [T A]. split; [exact T |]. rewrite <- E. exact A.
Qed.

(** A value with two decimals, as a number of hundredths, with the bounds
    that rounding gives. *)
Lemma rounds_to_hundredths (v x : Q) :
  rounds_to v x ->
  exists n : Z,
    (v == inject_Z n / 100)%Q
    /\ (x * 100 - (1 # 2) <= inject_Z n)%Q
    /\ (inject_Z n <= x * 100 + (1 # 2))%Q.
Proof.
  intros [[n E] A]. exists n. split; [exact E |].
  apply Qabs_Qle_condition in A. destruct A as [L U].
  rewrite E in L, U.
  assert (N : (inject_Z n == inject_Z n / 100 * 100)%Q) by field.
  split; lra.
Qed.

Lemma rounds_to_nonneg (v x : Q) : rounds_to v x -> (0 <= x)%Q -> (0 <= v)%Q.
Proof.
  intros R X. destruct (rounds_to_hundredths v x R) as (n & E & L & _).
  assert (N : 0 <= n).
  { assert (N1 : -1 < n)
      by (rewrite Zlt_Qlt; change (inject_Z (-1)) with (-1)%Q; lra).
    lia. }
  rewrite Zle_Qle in N. change (inject_Z 0) with 0%Q in N.
  rewrite E. apply Qle_shift_div_l; lra.
Qed.

Lemma rounds_to_nonpos (v x : Q) : rounds_to v x -> (x <= 0)%Q -> (v <= 0)%Q.
Proof.
  intros R X. destruct (rounds_to_hundredths v x R) as (n & E & _ & U).
  assert (N : n <= 0).
  { assert (N1 : n < 1)
      by (rewrite Zlt_Qlt; change (inject_Z 1) with 1%Q; lra).
    lia. }
  rewrite Zle_Qle in N. change (inject_Z 0) with 0%Q in N.
  rewrite E. apply Qle_shift_div_r; lra.
Qed.

Lemma rounds_to_neg (v x : Q) :
  rounds_to v x -> (x < - (1 # 200))%Q -> (v < 0)%Q.
Proof.
  intros [_ A] X. apply Qabs_Qle_condition in A. lra.
Qed.

Lemma rounds_to_zero (v x : Q) :
  rounds_to v x -> (- (1 # 200) < x)%Q -> (x <= 0)%Q -> (v == 0)%Q.
Proof.
  intros R L X. apply Qle_antisym; [exact (rounds_to_nonpos v x R X) |].
  destruct (rounds_to_hundredths v x R) as (n & E & Ln & _).
  assert (N : 0 <= n).
  { assert (N1 : -1 < n)
      by (rewrite Zlt_Qlt; change (inject_Z (-1)) with (-1)%Q; lra).
    lia. }
  rewrite Zle_Qle in N. change (inject_Z 0) with 0%Q in N.
  rewrite E. apply Qle_shift_div_l; lra.
Qed.

(** A whole or a half number of pixels is its own rounding, whatever the
    rule. *)
Lemma rounds_to_half (v : Q) (k : Z) :
  rounds_to v (inject_Z k / 2) -> (v == inject_Z k / 2)%Q.
Proof.
  intros R. destruct (rounds_to_hundredths _ _ R) as (n & E & L & U).
  assert (K : (inject_Z k / 2 * 100 == inject_Z (50 * k))%Q)
    by (rewrite inject_Z_mult; change (inject_Z 50) with 50%Q; field).
  rewrite K in L, U.
  assert (N : n = 50 * k).
  { assert (N1 : n < 50 * k + 1)
      by (rewrite Zlt_Qlt, inject_Z_plus; change (inject_Z 1) with 1%Q; lra).
    assert (N2 : 50 * k < n + 1)
      by (rewrite Zlt_Qlt, inject_Z_plus; change (inject_Z 1) with 1%Q; lra).
    lia. }
  rewrite E, N, <- K. field.
Qed.

Lemma rounds_to_Z (v : Q) (k : Z) :
  rounds_to v (inject_Z k) -> (v == inject_Z k)%Q.
Proof.
  intros R.
  assert (E : (inject_Z k == inject_Z (2 * k) / 2)%Q)
    by (rewrite inject_Z_mult; change (inject_Z 2) with 2%Q; field).
  rewrite E. apply rounds_to_half. apply (rounds_to_comp _ _ _ E R).
Qed.

Section PathFacts.

Context {cv : OpenCV}.

(** The calibration block works with the pixels of its path. *)
Lemma calibration_path_pixels (roi_color : image) (left_eye right_eye : Box) :
  let cal := calibration_of roi_color left_eye right_eye in
  PathPixels roi_color left_eye right_eye
    (cal_eye_pixels cal) (interpupil_distance_pixels cal).
Proof.
  intros cal.
  destruct (cal_path cal) eqn:P.
  - assert (A : all_present roi_color left_eye right_eye).
    { apply precise_guard_all_present.
      apply (proj1 (calibrate_path left_eye right_eye _ _ _ _)). exact P. }
    unfold cal, calibration_of in P. apply calibrate_precise in P.
    fold (calibration_of roi_color left_eye right_eye) in P. fold cal in P.
    destruct P as (lb & rb & lp & rp & E1 & E2 & E3 & E4 & Ee & Ed).
    rewrite Ee, Ed. apply (PrecisePixels _ _ _ lb rb lp rp); assumption.
  - assert (A : any_absent roi_color left_eye right_eye).
    { apply all_present_or_absent. intros A.
      apply precise_guard_all_present in A.
      apply (proj2 (calibrate_path left_eye right_eye _ _ _ _)) in A.
      fold (calibration_of roi_color left_eye right_eye) in A. fold cal in A.
      congruence. }
    unfold cal, calibration_of in P. apply calibrate_approximate in P.
    fold (calibration_of roi_color left_eye right_eye) in P. fold cal in P.
    destruct P as [Ee Ed]. rewrite Ee, Ed. apply ApproximatePixels. exact A.
Qed.

(** One path applies, with one pair of numbers. *)
Lemma path_pixels_unique (roi_color : image) (left_eye right_eye : Box)
    (e d e' d' : Q) :
  PathPixels roi_color left_eye right_eye e d ->
  PathPixels roi_color left_eye right_eye e' d' ->
  e = e' /\ d = d'.
Proof.
  intros [lb rb lp rp A E1 E2 E3 E4 | A] [lb' rb' lp' rp' A' F1 F2 F3 F4 | A'].
  - rewrite E1 in F1. rewrite E2 in F2. rewrite E3 in F3. rewrite E4 in F4.
    inversion F1; inversion F2; inversion F3; inversion F4; subst.
    split; reflexivity.
  - apply all_present_or_absent in A'. contradiction.
  - apply all_present_or_absent in A. contradiction.
  - split; reflexivity.
Qed.

(** The three fields, from the pixels of the path. *)
Lemma measure_eyes_fields (roi_color : image) (left_eye right_eye : Box)
    (e d : Q) :
  PathPixels roi_color left_eye right_eye e d ->
  let m := measure_eyes roi_color left_eye right_eye in
  let ratio := ratio_of_distance d in
  pixel_to_mm_ratio (calibration_of roi_color left_eye right_eye) = ratio
  /\ eye_width_mm m = round2 (e * ratio)
  /\ bridge_width_mm m
     = round2 (inject_Z (bridge_distance_pixels left_eye right_eye) * ratio)
  /\ b_size_mm m
     = round2 (inject_Z (b_size_pixels left_eye right_eye) * ratio).
Proof.
  intros P m ratio.
  destruct (path_pixels_unique _ _ _ _ _ _ _ P
              (calibration_path_pixels roi_color left_eye right_eye))
    as [-> ->].
  destruct (calibrate_ratio left_eye right_eye
              (detect_iris_boundaries (eye_roi_of roi_color left_eye))
              (detect_iris_boundaries (eye_roi_of roi_color right_eye))
              (detect_pupil_center (eye_roi_of roi_color left_eye))
              (detect_pupil_center (eye_roi_of roi_color right_eye)))
    as [R W].
  fold (calibration_of roi_color left_eye right_eye) in R, W.
  unfold m, measure_eyes. cbn [eye_width_mm bridge_width_mm b_size_mm].
  unfold ratio. rewrite W, R. repeat split; reflexivity.
Qed.

End PathFacts.

(** * The claims *)

Section Claims.

Context {cv : OpenCV}.

(** C1.  One invocation of [process_frame] returns a pair in which exactly
    one of the measurement and the error message is not [None]: never
    both, never neither, and no exception escapes. *)
Theorem process_frame_exactly_one (frame : image) :
  exists measurement error_msg,
    process_frame frame = Returns measurement error_msg
    /\ ((measurement <> None /\ error_msg = None)
        \/ (measurement = None /\ error_msg <> None)).
Proof.
  destruct (process_frame_stage frame); eexists; eexists;
    (split; [reflexivity |]);
    ((left; split; [discriminate | reflexivity])
     || (right; split; [reflexivity | discriminate])).
Qed.

(** C4.  [process_frame] fails with "No face detected" exactly when the
    face detector returns no candidate; with "No centered face found"
    exactly when there is a candidate and [is_face_centered] rejects every
    one; and with "Not enough eyes detected" exactly when the first
    candidate that [is_face_centered] accepts has fewer than two eye boxes
    in its ROI. *)
Theorem error_conditions (frame : image) :
  (process_frame frame = Returns None (Some "No face detected"%string)
   <-> faces_of frame = [])
  /\ (process_frame frame = Returns None (Some "No centered face found"%string)
      <-> faces_of frame <> []
          /\ forall face, In face (faces_of frame) ->
                          centered_in frame face = false)
  /\ (process_frame frame = Returns None (Some "Not enough eyes detected"%string)
      <-> exists face,
            accepted_face frame = Some face
            /\ (List.length (eyes_of frame face) < 2)%nat).
Proof.
  rewrite <- accepted_face_none.
  destruct (process_frame_stage frame)
    as [F | F A | face A L | face l r rest A L S].
  - repeat split; try discriminate; try tauto.
    intros (face & A & _). unfold accepted_face in A.
    rewrite F in A. discriminate.
  - repeat split; try discriminate; try tauto.
    intros (face & A' & _). congruence.
  - repeat split; try discriminate; try (intros; now exists face).
    + intros E. apply accepted_face_detected in A. rewrite E in A.
      destruct A as [[] _].
    + intros [_ A']. congruence.
  - repeat split; try discriminate.
    + intros E. apply accepted_face_detected in A. rewrite E in A.
      destruct A as [[] _].
    + intros [_ A']. congruence.
    + intros (face' & A' & L'). exfalso.
      rewrite A in A'. inversion A'; subst. lia.
Qed.

(** C9.  When the accepted face has two eye boxes or more, the boxes
    sorted by ascending [x] begin with [left_eye] and [right_eye]; these
    are two of the detected boxes, [left_eye] is not to the right of
    [right_eye], no other box is to the left of [right_eye], and the
    measurement returned is computed from these two alone. *)
Theorem two_leftmost_eyes (frame : image) (face : Box) :
  accepted_face frame = Some face ->
  (2 <= List.length (eyes_of frame face))%nat ->
  exists left_eye right_eye rest,
    sorted_by_x (eyes_of frame face) = left_eye :: right_eye :: rest
    /\ Permutation (eyes_of frame face) (left_eye :: right_eye :: rest)
    /\ bx left_eye <= bx right_eye
    /\ Forall (fun b => bx right_eye <= bx b) rest
    /\ process_frame frame
       = Returns
           (Some (measure_eyes (face_roi_color frame face) left_eye right_eye))
           None.
Proof.
  intros A L.
  destruct (sorted_by_x_two (eyes_of frame face) L)
    as (l & r & rest & S & P & O & R).
  exists l, r, rest. repeat split; try assumption.
  apply calibrator_input_measured. unfold calibrator_input.
  rewrite A, S. reflexivity.
Qed.

(** C10.  [detect_iris_boundaries] returns [(None, None)], or the two
    integers [x - r] and [x + r] for the first circle [(x, y, r)] found;
    so the guard of lines 118-119, which looks at the left eye's left
    boundary and the right eye's right boundary only, holds exactly when
    both boundaries of both eyes and both pupil centers are present. *)
Theorem iris_boundaries_both_or_none :
  (forall eye_roi : image,
      (iris_circles eye_roi = None
       /\ detect_iris_boundaries eye_roi = (None, None))
      \/ exists circles x y r,
           iris_circles eye_roi = Some circles
           /\ first_circle circles = (x, y, r)
           /\ detect_iris_boundaries eye_roi = (Some (x - r), Some (x + r)))
  /\ (forall (roi_color : image) (left_eye right_eye : Box),
        precise_guard
          (detect_iris_boundaries (eye_roi_of roi_color left_eye))
          (detect_iris_boundaries (eye_roi_of roi_color right_eye))
          (detect_pupil_center (eye_roi_of roi_color left_eye))
          (detect_pupil_center (eye_roi_of roi_color right_eye))
        <-> all_present roi_color left_eye right_eye).
Proof.
  split; [| apply precise_guard_all_present].
  intros eye_roi. unfold detect_iris_boundaries.
  destruct (iris_circles eye_roi) as [circles |]; [right | now left].
  destruct (first_circle circles) as [[x y] r] eqn:E.
  exists circles, x, y, r. repeat split; assumption || reflexivity.
Qed.

(** C2.  In an invocation that reaches the calibrator a measurement is
    returned, and exactly one of two cases holds.  When both iris
    boundaries and the pupil center are present for both eyes, the three
    fields are the precise numbers: the iris span, the bridge and the
    b-size, times the ratio of the pupil distance, rounded to two decimals.
    When one of the four is absent they are the approximate numbers: the
    mean of the two box widths, the bridge and the b-size, times the ratio
    of the distance between the two box centers, rounded to two
    decimals. *)
Theorem calibration_path_selection
    (frame roi_color : image) (left_eye right_eye : Box) :
  calibrator_input frame = Some (roi_color, left_eye, right_eye) ->
  let left_roi := eye_roi_of roi_color left_eye in
  let right_roi := eye_roi_of roi_color right_eye in
  let bridge := inject_Z (bridge_distance_pixels left_eye right_eye) in
  let b_size := inject_Z (b_size_pixels left_eye right_eye) in
  exists m,
    process_frame frame = Returns (Some m) None
    /\ (all_present roi_color left_eye right_eye
        \/ any_absent roi_color left_eye right_eye)
    /\ ~ (all_present roi_color left_eye right_eye
          /\ any_absent roi_color left_eye right_eye)
    /\ (all_present roi_color left_eye right_eye ->
        exists left_boundary right_boundary left_pupil right_pupil,
          fst (detect_iris_boundaries left_roi) = Some left_boundary
          /\ snd (detect_iris_boundaries right_roi) = Some right_boundary
          /\ detect_pupil_center left_roi = Some left_pupil
          /\ detect_pupil_center right_roi = Some right_pupil
          /\ let span :=
               inject_Z ((bx right_eye + right_boundary)
                         - (bx left_eye + left_boundary)) in
             let ratio :=
               ratio_of_distance
                 (inject_Z ((bx right_eye + fst right_pupil)
                            - (bx left_eye + fst left_pupil))) in
             rounds_to (eye_width_mm m) (span * ratio)
             /\ rounds_to (bridge_width_mm m) (bridge * ratio)
             /\ rounds_to (b_size_mm m) (b_size * ratio))
    /\ (any_absent roi_color left_eye right_eye ->
        let mean := (inject_Z (bw left_eye + bw right_eye) / 2)%Q in
        let ratio :=
          ratio_of_distance
            ((inject_Z (bx right_eye) + inject_Z (bw right_eye) / 2)
             - (inject_Z (bx left_eye) + inject_Z (bw left_eye) / 2)) in
        rounds_to (eye_width_mm m) (mean * ratio)
        /\ rounds_to (bridge_width_mm m) (bridge * ratio)
        /\ rounds_to (b_size_mm m) (b_size * ratio)).
Proof.
  intros H left_roi right_roi bridge b_size.
  exists (measure_eyes roi_color left_eye right_eye).
  split; [apply calibrator_input_measured; exact H |].
  pose proof (calibration_path_pixels roi_color left_eye right_eye) as P.
  cbv zeta in P.
  set (e := cal_eye_pixels (calibration_of roi_color left_eye right_eye)) in P.
  set (d := interpupil_distance_pixels
              (calibration_of roi_color left_eye right_eye)) in P.
  destruct (measure_eyes_fields roi_color left_eye right_eye e d P)
    as (_ & Fe & Fb & Fs).
  split; [| split; [| split]].
  - destruct P; [left | right]; assumption.
  - intros [A B]. apply all_present_or_absent in B. contradiction.
  - intros A.
    destruct P as [lb rb lp rp _ E1 E2 E3 E4 | B];
      [| apply all_present_or_absent in B; contradiction].
    exists lb, rb, lp, rp. rewrite Fe, Fb, Fs.
    do 4 (split; [assumption |]). cbv zeta.
    split; [| split]; apply round2_rounds_to.
  - intros B.
    destruct P as [lb rb lp rp A _ _ _ _ | _];
      [apply all_present_or_absent in B; contradiction |].
    rewrite Fe, Fb, Fs. cbv zeta.
    split; [| split]; apply round2_rounds_to.
Qed.

(** C3.  In an invocation that reaches the calibrator, on either path, a
    measurement is returned whatever the distance is (the pupil distance on
    the precise path, the distance between the box centers on the
    approximate one).  When the distance is zero or negative the ratio is
    [1] and each field is its pixel quantity, unconverted; when it is
    positive the ratio is [63] divided by it, and each field is its pixel
    quantity times that ratio, rounded to two decimals. *)
Theorem degenerate_distance_ratio
    (frame roi_color : image) (left_eye right_eye : Box) :
  calibrator_input frame = Some (roi_color, left_eye, right_eye) ->
  let bridge := inject_Z (bridge_distance_pixels left_eye right_eye) in
  let b_size := inject_Z (b_size_pixels left_eye right_eye) in
  let ratio :=
    pixel_to_mm_ratio (calibration_of roi_color left_eye right_eye) in
  exists m eye_pixels distance,
    process_frame frame = Returns (Some m) None
    /\ PathPixels roi_color left_eye right_eye eye_pixels distance
    /\ ((distance <= 0)%Q ->
        ratio = 1%Q
        /\ (eye_width_mm m == eye_pixels)%Q
        /\ (bridge_width_mm m == bridge)%Q
        /\ (b_size_mm m == b_size)%Q)
    /\ ((0 < distance)%Q ->
        ratio = (inject_Z 63 / distance)%Q
        /\ rounds_to (eye_width_mm m) (eye_pixels * (inject_Z 63 / distance))
        /\ rounds_to (bridge_width_mm m) (bridge * (inject_Z 63 / distance))
        /\ rounds_to (b_size_mm m) (b_size * (inject_Z 63 / distance))).
Proof.
  intros H bridge b_size ratio.
  pose proof (calibration_path_pixels roi_color left_eye right_eye) as P.
  cbv zeta in P.
  set (e := cal_eye_pixels (calibration_of roi_color left_eye right_eye)) in P.
  set (d := interpupil_distance_pixels
              (calibration_of roi_color left_eye right_eye)) in P.
  exists (measure_eyes roi_color left_eye right_eye), e, d.
  split; [apply calibrator_input_measured; exact H |].
  split; [exact P |].
  destruct (measure_eyes_fields roi_color left_eye right_eye e d P)
    as (R & Fe & Fb & Fs).
  fold ratio in R. unfold ratio_of_distance in *.
  split.
  - intros D. apply Qltb_ge in D. rewrite D in *.
    split; [exact R |].
    assert (He : (round2 (e * 1) == e)%Q).
    { assert (E1 : (e * 1 == e)%Q) by ring. rewrite E1.
      destruct P as [lb rb lp rp _ _ _ _ _ | _];
        [apply round2_Z | apply round2_half]. }
    assert (Hb : (round2 (bridge * 1) == bridge)%Q).
    { assert (E1 : (bridge * 1 == bridge)%Q) by ring. rewrite E1.
      apply round2_Z. }
    assert (Hs : (round2 (b_size * 1) == b_size)%Q).
    { assert (E1 : (b_size * 1 == b_size)%Q) by ring. rewrite E1.
      apply round2_Z. }
    rewrite Fe, Fb, Fs. repeat split; assumption.
  - intros D. apply Qltb_lt in D. rewrite D in *.
    split; [exact R |].
    rewrite Fe, Fb, Fs. split; [| split]; apply round2_rounds_to.
Qed.

(** C6 (amended).  In a successful invocation [bridge_width_mm] is the
    right box's left edge minus the left box's right edge, times the ratio
    of the path's distance, rounded to two decimals, and nothing clamps it.
    When the two boxes overlap horizontally the product is negative, and
    its rounding to two decimals, whatever the rule for ties, is never
    positive: negative when the product is below [-0.005], zero when it is
    above. *)
Theorem bridge_width_unclamped (frame : image) (m : Measurement) :
  process_frame frame = Returns (Some m) None ->
  exists roi_color left_eye right_eye eye_pixels distance,
    calibrator_input frame = Some (roi_color, left_eye, right_eye)
    /\ PathPixels roi_color left_eye right_eye eye_pixels distance
    /\ let product :=
         (inject_Z (bx right_eye - (bx left_eye + bw left_eye))
          * ratio_of_distance distance)%Q in
       rounds_to (bridge_width_mm m) product
       /\ (bx right_eye < bx left_eye + bw left_eye ->
           (product < 0)%Q
           /\ forall v,
                rounds_to v product ->
                (v <= 0)%Q
                /\ ((product < - (1 # 200))%Q -> (v < 0)%Q)
                /\ ((- (1 # 200) < product)%Q -> (v == 0)%Q)).
Proof.
  intros H.
  destruct (measured_calibrator_input frame m H) as (roi & l & r & I & M).
  pose proof (calibration_path_pixels roi l r) as P. cbv zeta in P.
  set (e := cal_eye_pixels (calibration_of roi l r)) in P.
  set (d := interpupil_distance_pixels (calibration_of roi l r)) in P.
  exists roi, l, r, e, d. split; [exact I |]. split; [exact P |].
  destruct (measure_eyes_fields roi l r e d P) as (_ & _ & Fb & _).
  cbv zeta. split.
  - rewrite M, Fb. apply round2_rounds_to.
  - intros O.
    pose proof (ratio_of_distance_pos d) as R.
    assert (N : (inject_Z (bx r - (bx l + bw l)) < 0)%Q)
      by (change 0%Q with (inject_Z 0); rewrite <- Zlt_Qlt; lia).
    assert (Pn : (inject_Z (bx r - (bx l + bw l)) * ratio_of_distance d < 0)%Q)
      by nra.
    split; [exact Pn |]. intros v V. split; [| split].
    + apply (rounds_to_nonpos _ _ V). lra.
    + apply rounds_to_neg. exact V.
    + intros L. apply (rounds_to_zero _ _ V L). lra.
Qed.

(** C7 (amended).  In a successful invocation the three fields have two
    decimals, and their signs are those of the pixel quantities:
    [b_size_mm] is non-negative when the two eye boxes have non-negative
    width and height; [eye_width_mm] is non-negative on the approximate
    path when the two box widths are non-negative, and on the precise path
    it is non-negative when the right eye's right iris boundary is not
    left of the left eye's left iris boundary and not positive when it is
    not right of it; [bridge_width_mm] is non-negative when the boxes do
    not overlap horizontally and not positive when they do. *)
Theorem measurement_fields (frame : image) (m : Measurement) :
  process_frame frame = Returns (Some m) None ->
  two_decimals (eye_width_mm m)
  /\ two_decimals (bridge_width_mm m)
  /\ two_decimals (b_size_mm m)
  /\ exists roi_color left_eye right_eye,
       calibrator_input frame = Some (roi_color, left_eye, right_eye)
       /\ (0 <= bw left_eye -> 0 <= bh left_eye ->
           0 <= bw right_eye -> 0 <= bh right_eye ->
           (0 <= b_size_mm m)%Q)
       /\ (any_absent roi_color left_eye right_eye ->
           0 <= bw left_eye -> 0 <= bw right_eye ->
           (0 <= eye_width_mm m)%Q)
       /\ (all_present roi_color left_eye right_eye ->
           exists left_boundary right_boundary,
             fst (detect_iris_boundaries (eye_roi_of roi_color left_eye))
             = Some left_boundary
             /\ snd (detect_iris_boundaries (eye_roi_of roi_color right_eye))
                = Some right_boundary
             /\ (bx left_eye + left_boundary <= bx right_eye + right_boundary ->
                 (0 <= eye_width_mm m)%Q)
             /\ (bx right_eye + right_boundary <= bx left_eye + left_boundary ->
                 (eye_width_mm m <= 0)%Q))
       /\ (bx left_eye + bw left_eye <= bx right_eye ->
           (0 <= bridge_width_mm m)%Q)
       /\ (bx right_eye <= bx left_eye + bw left_eye ->
           (bridge_width_mm m <= 0)%Q).
Proof.
  intros H.
  destruct (measured_calibrator_input frame m H) as (roi & l & r & I & M).
  pose proof (calibration_path_pixels roi l r) as P. cbv zeta in P.
  set (e := cal_eye_pixels (calibration_of roi l r)) in P.
  set (d := interpupil_distance_pixels (calibration_of roi l r)) in P.
  destruct (measure_eyes_fields roi l r e d P) as (_ & Fe & Fb & Fs).
  pose proof (ratio_of_distance_pos d) as R.
  rewrite M, Fe, Fb, Fs.
  do 3 (split; [apply round2_two_decimals |]).
  exists roi, l, r. split; [exact I |].
  split; [| split; [| split; [| split]]].
  - intros Wl Hl Wr Hr. apply round2_nonneg.
    assert (B : 0 <= b_size_pixels l r).
    { unfold b_size_pixels, capped_eye_height.
      rewrite !int_of_float_six_tenths.
      pose proof (Z.quot_pos (3 * bw l) 5).
      pose proof (Z.quot_pos (3 * bw r) 5). lia. }
    rewrite Zle_Qle in B. change (inject_Z 0) with 0%Q in B. nra.
  - intros A Wl Wr. apply round2_nonneg.
    destruct P as [lb rb lp rp A' _ _ _ _ | _];
      [apply all_present_or_absent in A; contradiction |].
    assert (B : 0 <= bw l + bw r) by lia.
    rewrite Zle_Qle in B. change (inject_Z 0) with 0%Q in B.
    assert (Q2 : (0 <= inject_Z (bw l + bw r) / 2)%Q)
      by (apply Qle_shift_div_l; lra).
    nra.
  - intros A.
    destruct P as [lb rb lp rp _ E1 E2 _ _ | B];
      [| apply all_present_or_absent in B; contradiction].
    exists lb, rb. split; [exact E1 |]. split; [exact E2 |]. split.
    + intros G. apply round2_nonneg.
      assert (B : 0 <= (bx r + rb) - (bx l + lb)) by lia.
      rewrite Zle_Qle in B. change (inject_Z 0) with 0%Q in B. nra.
    + intros G. apply round2_nonpos.
      assert (B : (bx r + rb) - (bx l + lb) <= 0) by lia.
      rewrite Zle_Qle in B. change (inject_Z 0) with 0%Q in B. nra.
  - intros G. apply round2_nonneg.
    assert (B : 0 <= bridge_distance_pixels l r)
      by (unfold bridge_distance_pixels; lia).
    rewrite Zle_Qle in B. change (inject_Z 0) with 0%Q in B. nra.
  - intros G. apply round2_nonpos.
    assert (B : bridge_distance_pixels l r <= 0)
      by (unfold bridge_distance_pixels; lia).
    rewrite Zle_Qle in B. change (inject_Z 0) with 0%Q in B. nra.
Qed.

(** C8 (amended).  In a successful invocation [b_size_mm] is
    max (min (left height, q_left), min (right height, q_right)) times the
    ratio of the path's distance, rounded to two decimals, where [q] is
    0.6 times the box width truncated to an integer ([int (w * 0.6)], the
    quotient of [3 * w] by [5]). *)
Theorem b_size_truncated (frame : image) (m : Measurement) :
  process_frame frame = Returns (Some m) None ->
  exists roi_color left_eye right_eye eye_pixels distance,
    calibrator_input frame = Some (roi_color, left_eye, right_eye)
    /\ PathPixels roi_color left_eye right_eye eye_pixels distance
    /\ rounds_to (b_size_mm m)
         (inject_Z
            (Z.max (Z.min (bh left_eye) (Z.quot (3 * bw left_eye) 5))
                   (Z.min (bh right_eye) (Z.quot (3 * bw right_eye) 5)))
          * ratio_of_distance distance).
Proof.
  intros H.
  destruct (measured_calibrator_input frame m H) as (roi & l & r & I & M).
  pose proof (calibration_path_pixels roi l r) as P. cbv zeta in P.
  set (e := cal_eye_pixels (calibration_of roi l r)) in P.
  set (d := interpupil_distance_pixels (calibration_of roi l r)) in P.
  exists roi, l, r, e, d. split; [exact I |]. split; [exact P |].
  destruct (measure_eyes_fields roi l r e d P) as (_ & _ & _ & Fs).
  rewrite M, Fs. unfold b_size_pixels, capped_eye_height.
  rewrite !int_of_float_six_tenths. apply round2_rounds_to.
Qed.

End Claims.

(** C5 (amended).  With the center and the midpoints floor-divided, as the
    code computes them ([x + w // 2], [frame_width // 2]),
    [is_face_centered] accepts a face exactly when its center is strictly
    less than 20% of the frame width away from the horizontal midpoint,
    strictly less than 20% of the frame height away from the vertical
    midpoint, and its height is strictly more than 30% of the frame height;
    a center exactly 20% away is rejected.  The offset of that center from
    that midpoint is within half a pixel of the offset of the real center
    [x + w / 2] from the real midpoint [frame_width / 2]; when the face
    width has the parity of the frame width and the face height that of
    the frame height the two offsets are equal, and the test is the same
    test on the real center and the real midpoint. *)
Theorem is_face_centered_strict
    (face_x face_y face_w face_h frame_width frame_height : Z) :
  let center_x := inject_Z (face_x + face_w / 2) in
  let center_y := inject_Z (face_y + face_h / 2) in
  let mid_x := inject_Z (frame_width / 2) in
  let mid_y := inject_Z (frame_height / 2) in
  (is_face_centered face_x face_y face_w face_h frame_width frame_height = true
   <-> (Qabs (center_x - mid_x) < (20 # 100) * inject_Z frame_width
        /\ Qabs (center_y - mid_y) < (20 # 100) * inject_Z frame_height
        /\ (30 # 100) * inject_Z frame_height < inject_Z face_h)%Q)
  /\ ((Qabs (center_x - mid_x) == (20 # 100) * inject_Z frame_width
       \/ Qabs (center_y - mid_y) == (20 # 100) * inject_Z frame_height)%Q ->
      is_face_centered face_x face_y face_w face_h frame_width frame_height
      = false)
  /\ (Qabs ((center_x - mid_x)
            - ((inject_Z face_x + inject_Z face_w / 2)
               - inject_Z frame_width / 2)) <= 1 # 2
      /\ Qabs ((center_y - mid_y)
               - ((inject_Z face_y + inject_Z face_h / 2)
                  - inject_Z frame_height / 2)) <= 1 # 2)%Q
  /\ (Z.even face_w = Z.even frame_width ->
      Z.even face_h = Z.even frame_height ->
      (is_face_centered face_x face_y face_w face_h frame_width frame_height
       = true
       <-> (Qabs ((inject_Z face_x + inject_Z face_w / 2)
                  - inject_Z frame_width / 2)
            < (20 # 100) * inject_Z frame_width
            /\ Qabs ((inject_Z face_y + inject_Z face_h / 2)
                     - inject_Z frame_height / 2)
               < (20 # 100) * inject_Z frame_height
            /\ (30 # 100) * inject_Z frame_height < inject_Z face_h)%Q)).
Proof.
  intros center_x center_y mid_x mid_y.
  assert (I : is_face_centered face_x face_y face_w face_h frame_width frame_height
              = true
              <-> (Qabs (center_x - mid_x) < (20 # 100) * inject_Z frame_width
                   /\ Qabs (center_y - mid_y) < (20 # 100) * inject_Z frame_height
                   /\ (30 # 100) * inject_Z frame_height < inject_Z face_h)%Q).
  { unfold is_face_centered. fold center_x center_y mid_x mid_y.
    rewrite !andb_true_iff, !Qltb_lt, !Qabs_Qlt_condition.
    split; intros H; decompose [and] H; clear H; repeat split; lra. }
  assert (Near : forall a b x : Z,
             (Qabs ((inject_Z (x + a / 2) - inject_Z (b / 2))
                    - ((inject_Z x + inject_Z a / 2) - inject_Z b / 2))
              <= 1 # 2)%Q).
  { intros a b x.
    pose proof (Z.div_mod a 2 ltac:(lia)) as Da.
    pose proof (Z.div_mod b 2 ltac:(lia)) as Db.
    pose proof (Z.mod_pos_bound a 2 ltac:(lia)) as Ba.
    pose proof (Z.mod_pos_bound b 2 ltac:(lia)) as Bb.
    assert (Qa : (inject_Z a
                  == 2 * inject_Z (a / 2) + inject_Z (a mod 2))%Q).
    { rewrite Da at 1. rewrite inject_Z_plus, inject_Z_mult. reflexivity. }
    assert (Qb : (inject_Z b
                  == 2 * inject_Z (b / 2) + inject_Z (b mod 2))%Q).
    { rewrite Db at 1. rewrite inject_Z_plus, inject_Z_mult. reflexivity. }
    assert (La : (0 <= inject_Z (a mod 2) <= 1)%Q).
    { split; [change 0%Q with (inject_Z 0) | change 1%Q with (inject_Z 1)];
        rewrite <- Zle_Qle; lia. }
    assert (Lb : (0 <= inject_Z (b mod 2) <= 1)%Q).
    { split; [change 0%Q with (inject_Z 0) | change 1%Q with (inject_Z 1)];
        rewrite <- Zle_Qle; lia. }
    assert (E : ((inject_Z (x + a / 2) - inject_Z (b / 2))
                 - ((inject_Z x + inject_Z a / 2) - inject_Z b / 2)
                 == (inject_Z (b mod 2) - inject_Z (a mod 2)) / 2)%Q).
    { rewrite inject_Z_plus, Qa, Qb. field. }
    rewrite E. apply Qabs_Qle_condition.
    split; [apply Qle_shift_div_l | apply Qle_shift_div_r]; lra. }
  split; [exact I |]. split; [| split].
  - intros B. apply not_true_is_false. intros T. apply I in T.
    destruct T as (X & Y & _). destruct B as [B | B]; rewrite B in *; lra.
  - split; apply Near.
  - intros Pw Ph.
    assert (Half : forall a b : Z,
               Z.even a = Z.even b ->
               forall x : Z,
                 (inject_Z (x + a / 2) - inject_Z (b / 2)
                  == (inject_Z x + inject_Z a / 2) - inject_Z b / 2)%Q).
    { intros a b E x.
      pose proof (Z.div_mod a 2 ltac:(lia)) as Da.
      pose proof (Z.div_mod b 2 ltac:(lia)) as Db.
      assert (M : a mod 2 = b mod 2) by (rewrite !Zmod_even, E; reflexivity).
      assert (Qa : (inject_Z a
                    == 2 * inject_Z (a / 2) + inject_Z (a mod 2))%Q).
      { rewrite Da at 1. rewrite inject_Z_plus, inject_Z_mult. reflexivity. }
      assert (Qb : (inject_Z b
                    == 2 * inject_Z (b / 2) + inject_Z (a mod 2))%Q).
      { rewrite Db at 1. rewrite inject_Z_plus, inject_Z_mult, M.
        reflexivity. }
      rewrite inject_Z_plus, Qa, Qb. field. }
    rewrite I. unfold center_x, center_y, mid_x, mid_y.
    rewrite (Half face_w frame_width Pw face_x),
            (Half face_h frame_height Ph face_y).
    reflexivity.
Qed.

(** ** The claims on the scripted scenes *)

Import Scripted.

(** A face whose center is at column 448 of a 640-wide frame, exactly 20% of
    the width (128) right of the midpoint 320, is rejected. *)
Lemma is_face_centered_strict_witness :
  is_face_centered 348 140 200 200 640 480 = false.
Proof.
  apply (proj1 (proj2 (is_face_centered_strict 348 140 200 200 640 480))).
  left. reflexivity.
Defined.

(** C5, as stated, fails both ways.  The face (65, 140, 255, 200) in a
    640x480 frame has its real center 192.5 at 127.5 from the midpoint
    320, inside the tolerance 128, and is rejected: the code's center is
    192.  The face (0, 140, 384, 200) in a 641x480 frame has its center 192
    at 128.5 from the midpoint 320.5, outside the tolerance 128.2, and is
    accepted: the code's midpoint is 320. *)
Lemma real_center_differs :
  ((Qabs ((inject_Z 65 + inject_Z 255 / 2) - inject_Z 640 / 2)
    < (20 # 100) * inject_Z 640)%Q
   /\ (Qabs ((inject_Z 140 + inject_Z 200 / 2) - inject_Z 480 / 2)
       < (20 # 100) * inject_Z 480)%Q
   /\ ((30 # 100) * inject_Z 480 < inject_Z 200)%Q
   /\ is_face_centered 65 140 255 200 640 480 = false)
  /\ (((20 # 100) * inject_Z 641
       < Qabs ((inject_Z 0 + inject_Z 384 / 2) - inject_Z 641 / 2))%Q
      /\ is_face_centered 0 140 384 200 641 480 = true).
Proof. repeat split. Qed.

(** One column to the left it is accepted. *)
Example inside_tolerance_accepted :
  is_face_centered 347 140 200 200 640 480 = true.
Proof. reflexivity. Qed.

(** The scene with circles: all four sub-features are present, and the
    fields are the precise numbers (iris span 106, pupil distance 90). *)
Lemma calibration_path_selection_witness :
  @calibrator_input (scripted with_circles) (frame_of with_circles)
  = Some (mkView 220 140 200 200, mkBox 40 60 30 30, mkBox 130 60 30 30)
  /\ @all_present (scripted with_circles)
       (mkView 220 140 200 200) (mkBox 40 60 30 30) (mkBox 130 60 30 30)
  /\ exists m left_boundary right_boundary left_pupil right_pupil,
       run with_circles = Returns (Some m) None
       /\ Some 7 = Some left_boundary
       /\ Some 23 = Some right_boundary
       /\ Some (15, 15) = Some left_pupil
       /\ Some (15, 15) = Some right_pupil
       /\ rounds_to (eye_width_mm m)
            (inject_Z ((130 + right_boundary) - (40 + left_boundary))
             * ratio_of_distance
                 (inject_Z ((130 + fst right_pupil) - (40 + fst left_pupil)))).
Proof.
  assert (A : @all_present (scripted with_circles)
                (mkView 220 140 200 200) (mkBox 40 60 30 30)
                (mkBox 130 60 30 30))
    by (repeat split; discriminate).
  split; [reflexivity |]. split; [exact A |].
  destruct (@calibration_path_selection (scripted with_circles)
              (frame_of with_circles) (mkView 220 140 200 200)
              (mkBox 40 60 30 30) (mkBox 130 60 30 30) eq_refl)
    as (m & R & _ & _ & P & _).
  destruct (P A) as (lb & rb & lp & rp & E1 & E2 & E3 & E4 & W & _).
  exists m, lb, rb, lp, rp.
  split; [exact R |]. split; [exact E1 |]. split; [exact E2 |].
  split; [exact E3 |]. split; [exact E4 | exact W].
Defined.

(** Two eye boxes at the same [x]: distance zero, and the bridge width is
    the pixel gap, -30.  Scenario A: distance 90, and the bridge width is
    60 * 63 / 90 rounded. *)
Lemma degenerate_distance_ratio_witness :
  (@calibrator_input (scripted same_x) (frame_of same_x)
   = Some (mkView 220 140 200 200, mkBox 40 60 30 30, mkBox 40 100 30 30)
   /\ exists m eye_pixels distance,
        run same_x = Returns (Some m) None
        /\ @PathPixels (scripted same_x) (mkView 220 140 200 200)
             (mkBox 40 60 30 30) (mkBox 40 100 30 30) eye_pixels distance
        /\ (distance <= 0)%Q
        /\ (eye_width_mm m == eye_pixels)%Q
        /\ (bridge_width_mm m == -30)%Q)
  /\ (@calibrator_input (scripted scenario_A) (frame_of scenario_A)
      = Some (mkView 220 140 200 200, mkBox 40 60 30 30, mkBox 130 60 30 30)
      /\ exists m eye_pixels distance,
           run scenario_A = Returns (Some m) None
           /\ @PathPixels (scripted scenario_A) (mkView 220 140 200 200)
                (mkBox 40 60 30 30) (mkBox 130 60 30 30) eye_pixels distance
           /\ (0 < distance)%Q
           /\ rounds_to (bridge_width_mm m)
                (inject_Z 60 * (inject_Z 63 / distance))).
Proof.
  split.
  - split; [reflexivity |].
    destruct (@degenerate_distance_ratio (scripted same_x)
                (frame_of same_x) (mkView 220 140 200 200)
                (mkBox 40 60 30 30) (mkBox 40 100 30 30) eq_refl)
      as (m & e & d & R & P & Z & _).
    assert (D : (d <= 0)%Q).
    { assert (Q : @PathPixels (scripted same_x) (mkView 220 140 200 200)
                    (mkBox 40 60 30 30) (mkBox 40 100 30 30)
                    (inject_Z (30 + 30) / 2)
                    ((inject_Z 40 + inject_Z 30 / 2)
                     - (inject_Z 40 + inject_Z 30 / 2)))
        by (apply (@ApproximatePixels (scripted same_x));
            left; left; reflexivity).
      destruct (path_pixels_unique _ _ _ _ _ _ _ P Q) as [_ ->].
      discriminate. }
    exists m, e, d. split; [exact R |]. split; [exact P |].
    split; [exact D |].
    destruct (Z D) as (_ & E & B & _). split; [exact E | exact B].
  - split; [reflexivity |].
    destruct (@degenerate_distance_ratio (scripted scenario_A)
                (frame_of scenario_A) (mkView 220 140 200 200)
                (mkBox 40 60 30 30) (mkBox 130 60 30 30) eq_refl)
      as (m & e & d & R & P & _ & Z).
    assert (D : (0 < d)%Q).
    { assert (Q : @PathPixels (scripted scenario_A) (mkView 220 140 200 200)
                    (mkBox 40 60 30 30) (mkBox 130 60 30 30)
                    (inject_Z (30 + 30) / 2)
                    ((inject_Z 130 + inject_Z 30 / 2)
                     - (inject_Z 40 + inject_Z 30 / 2)))
        by (apply (@ApproximatePixels (scripted scenario_A));
            left; left; reflexivity).
      destruct (path_pixels_unique _ _ _ _ _ _ _ P Q) as [_ ->].
      reflexivity. }
    exists m, e, d. split; [exact R |]. split; [exact P |].
    split; [exact D |].
    destruct (Z D) as (_ & _ & B & _). exact B.
Defined.

(** C6, as stated, fails: the boxes of [wide_overlap] overlap by one column,
    the product is -63/12601, above -0.005, and the bridge width returned
    is zero, not negative. *)
Lemma bridge_width_overlap_zero :
  exists roi_color left_eye right_eye m,
    @calibrator_input (scripted wide_overlap) (frame_of wide_overlap)
    = Some (roi_color, left_eye, right_eye)
    /\ run wide_overlap = Returns (Some m) None
    /\ bx right_eye < bx left_eye + bw left_eye
    /\ (bridge_width_mm m == 0)%Q
    /\ ~ (bridge_width_mm m < 0)%Q.
Proof.
  exists (mkView 3350 3350 25300 25300),
    (mkBox 0 5000 12602 12602), (mkBox 12601 5000 12602 12602).
  eexists. split; [reflexivity |]. split; [vm_compute; reflexivity |].
  split; [reflexivity |]. split; [reflexivity |].
  intros N. discriminate N.
Qed.

Lemma bridge_width_unclamped_witness :
  run overlapping
  = Returns (Some (mkMeasurement (12600 / 100) (-6300 / 100) (7560 / 100))%Q) None
  /\ exists roi_color left_eye right_eye eye_pixels distance,
       @calibrator_input (scripted overlapping) (frame_of overlapping)
       = Some (roi_color, left_eye, right_eye)
       /\ @PathPixels (scripted overlapping)
            roi_color left_eye right_eye eye_pixels distance
       /\ rounds_to (-6300 / 100)
            (inject_Z (bx right_eye - (bx left_eye + bw left_eye))
             * ratio_of_distance distance).
Proof.
  split; [vm_compute; reflexivity |].
  destruct (@bridge_width_unclamped (scripted overlapping)
              (frame_of overlapping)
              (mkMeasurement (12600 / 100) (-6300 / 100) (7560 / 100))%Q
              eq_refl)
    as (roi & l & r & e & d & I & P & E & _).
  exists roi, l, r, e, d. split; [exact I |]. split; [exact P | exact E].
Defined.

(** C7, as stated, fails: on [overlapping] the bridge width returned is
    -63.00. *)
Lemma bridge_width_negative :
  exists m,
    run overlapping = Returns (Some m) None
    /\ (bridge_width_mm m == - (63 # 1))%Q
    /\ (bridge_width_mm m < 0)%Q.
Proof.
  eexists. split; [vm_compute; reflexivity |]. split; reflexivity.
Qed.

Lemma measurement_fields_witness :
  run scenario_A
  = Returns (Some (mkMeasurement (2100 / 100) (4200 / 100) (1260 / 100))%Q) None
  /\ two_decimals (2100 / 100)%Q
  /\ two_decimals (4200 / 100)%Q
  /\ two_decimals (1260 / 100)%Q
  /\ (0 <= 1260 / 100)%Q
  /\ (0 <= 2100 / 100)%Q
  /\ (0 <= 4200 / 100)%Q.
Proof.
  split; [vm_compute; reflexivity |].
  destruct (@measurement_fields (scripted scenario_A)
              (frame_of scenario_A)
              (mkMeasurement (2100 / 100) (4200 / 100) (1260 / 100))%Q
              eq_refl)
    as (Te & Tb & Ts & roi & l & r & I & B & E & _ & G & _).
  split; [exact Te |]. split; [exact Tb |]. split; [exact Ts |].
  assert (J : @calibrator_input (scripted scenario_A) (frame_of scenario_A)
              = Some (mkView 220 140 200 200,
                      mkBox 40 60 30 30, mkBox 130 60 30 30))
    by reflexivity.
  rewrite J in I. inversion I; subst roi l r.
  split; [apply B; cbn; lia |].
  split; [apply E; [left; left; reflexivity | cbn; lia | cbn; lia] |].
  apply G. cbn. lia.
Defined.

(** C8, as stated, fails: on [odd_width] the boxes are 31 wide and 40 high
    and the ratio is 1; the code returns min (40, int (18.6)) = 18.00, the
    formula of the specification gives min (40, 18.6) = 18.60. *)
Lemma b_size_not_spec_formula :
  exists roi_color left_eye right_eye m,
    @calibrator_input (scripted odd_width) (frame_of odd_width)
    = Some (roi_color, left_eye, right_eye)
    /\ run odd_width = Returns (Some m) None
    /\ (b_size_mm m == 18)%Q
    /\ (spec_b_size_mm left_eye right_eye
          (pixel_to_mm_ratio
             (@calibration_of (scripted odd_width)
                roi_color left_eye right_eye))
        == 186 # 10)%Q
    /\ ~ (b_size_mm m
          == spec_b_size_mm left_eye right_eye
               (pixel_to_mm_ratio
                  (@calibration_of (scripted odd_width)
                     roi_color left_eye right_eye)))%Q.
Proof.
  exists (mkView 220 140 200 200), (mkBox 40 60 31 40), (mkBox 103 60 31 40).
  eexists. split; [reflexivity |]. split; [vm_compute; reflexivity |].
  split; [reflexivity |]. split; [reflexivity |].
  intros N. discriminate N.
Qed.

Lemma b_size_truncated_witness :
  run odd_width
  = Returns (Some (mkMeasurement (3100 / 100) (3200 / 100) (1800 / 100))%Q) None
  /\ exists roi_color left_eye right_eye eye_pixels distance,
       @calibrator_input (scripted odd_width) (frame_of odd_width)
       = Some (roi_color, left_eye, right_eye)
       /\ @PathPixels (scripted odd_width)
            roi_color left_eye right_eye eye_pixels distance
       /\ rounds_to (1800 / 100)
            (inject_Z
               (Z.max (Z.min (bh left_eye) (Z.quot (3 * bw left_eye) 5))
                      (Z.min (bh right_eye) (Z.quot (3 * bw right_eye) 5)))
             * ratio_of_distance distance).
Proof.
  split; [vm_compute; reflexivity |].
  exact (@b_size_truncated (scripted odd_width) (frame_of odd_width)
           (mkMeasurement (3100 / 100) (3200 / 100) (1800 / 100))%Q eq_refl).
Defined.

(** Three eye boxes at x = 130, 40, 100: the boxes at 40 and 100 are
    chosen, the one at 130 is left out. *)
Lemma two_leftmost_eyes_witness :
  @accepted_face (scripted three_eyes) (frame_of three_eyes)
  = Some (mkBox 220 140 200 200)
  /\ (2 <= List.length
            (@eyes_of (scripted three_eyes) (frame_of three_eyes)
               (mkBox 220 140 200 200)))%nat
  /\ exists left_eye right_eye rest,
       sorted_by_x
         (@eyes_of (scripted three_eyes) (frame_of three_eyes)
            (mkBox 220 140 200 200))
       = left_eye :: right_eye :: rest
       /\ bx left_eye <= bx right_eye
       /\ run three_eyes
          = Returns
              (Some (@measure_eyes (scripted three_eyes)
                       (mkView 220 140 200 200) left_eye right_eye))
              None.
Proof.
  split; [reflexivity |]. split; [cbn; lia |].
  destruct (@two_leftmost_eyes (scripted three_eyes) (frame_of three_eyes)
              (mkBox 220 140 200 200) eq_refl)
    as (l & r & rest & S & _ & O & _ & R); [cbn; lia |].
  exists l, r, rest. split; [exact S |]. split; [exact O | exact R].
Defined.

Example three_eyes_chosen :
  sorted_by_x (scene_eyes three_eyes)
  = [mkBox 40 60 30 30; mkBox 100 20 30 30; mkBox 130 60 30 30].
Proof. reflexivity. Qed.

(** ** Binary64 against the exact model *)

Module Binary64Facts.

Import PrimFloat.

(** Horizontal test: every frame width from 1 to 640 and every center
    column from 0 to the width (the other two tests pass). *)
Lemma binary64_centered_x :
  forallb
    (fun W =>
       forallb (fun cx => Binary64.centered_agree cx 140 0 200 W 480)
         (Binary64.upto (Z.to_nat W + 1) 0))
    (Binary64.upto 640 1)
  = true.
Proof. vm_compute. reflexivity. Qed.

(** Vertical test: every frame height from 1 to 480 and every center row
    from 0 to the height, for a face as high as the frame. *)
Lemma binary64_centered_y :
  forallb
    (fun H =>
       forallb (fun cy => Binary64.centered_agree 220 (cy - H / 2) 200 H 640 H)
         (Binary64.upto (Z.to_nat H + 1) 0))
    (Binary64.upto 480 1)
  = true.
Proof. vm_compute. reflexivity. Qed.

(** Height test: every frame height from 1 to 480 and every face height
    from 0 to the frame height, for a face centered in the frame. *)
Lemma binary64_centered_height :
  forallb
    (fun H =>
       forallb (fun h => Binary64.centered_agree 220 (H / 2 - h / 2) 200 h 640 H)
         (Binary64.upto (Z.to_nat H + 1) 0))
    (Binary64.upto 480 1)
  = true.
Proof. vm_compute. reflexivity. Qed.

(** [int (w * 0.6)] for every width from 0 to 4096. *)
Lemma binary64_capped_eye_height :
  forallb
    (fun w =>
       match Binary64.capped_eye_height_b64 (mkBox 0 0 w w) with
       | Some q => q =? capped_eye_height (mkBox 0 0 w w)
       | None => false
       end)
    (Binary64.upto 4097 0)
  = true.
Proof. vm_compute. reflexivity. Qed.

(** The boundary face of 640x480: rejected in binary64 too, since
    [640 * 0.2] is exactly [128.0]. *)
Example binary64_boundary_rejected :
  Binary64.is_face_centered_b64 348 140 200 200 640 480 = false
  /\ Binary64.is_face_centered_b64 347 140 200 200 640 480 = true.
Proof. split; vm_compute; reflexivity. Qed.

(** Scenario A in binary64: 21.0, 42.0, 12.6. *)
Example binary64_scenario_A :
  Binary64.measure_approximate_b64 (mkBox 40 60 30 30) (mkBox 130 60 30 30)
  = Some (21%float, 42%float, 0x1.9333333333333p+3%float).
Proof. vm_compute. reflexivity. Qed.

(** [wide_overlap] in binary64: the bridge width is the negative zero,
    which is equal to zero and not below it. *)
Example binary64_wide_overlap :
  exists eye_width bridge_width b_size,
    Binary64.measure_approximate_b64
      (mkBox 0 5000 12602 12602) (mkBox 12601 5000 12602 12602)
    = Some (eye_width, bridge_width, b_size)
    /\ PrimFloat.eqb bridge_width 0%float = true
    /\ PrimFloat.ltb bridge_width 0%float = false.
Proof.
  eexists; eexists; eexists. split; [vm_compute; reflexivity |].
  split; vm_compute; reflexivity.
Qed.

(** [overlapping] in binary64: the bridge width is -63.0. *)
Example binary64_overlapping :
  Binary64.measure_approximate_b64 (mkBox 40 60 40 40) (mkBox 60 60 40 40)
  = Some (126%float, (-63)%float, 0x1.2e66666666666p+6%float).
Proof. vm_compute. reflexivity. Qed.

(** [odd_width] in binary64: [b_size_mm] is 18.0. *)
Example binary64_odd_width :
  Binary64.measure_approximate_b64 (mkBox 40 60 31 40) (mkBox 103 60 31 40)
  = Some (31%float, 32%float, 18%float).
Proof. vm_compute. reflexivity. Qed.

(** Two eye boxes whose exact product is a tie.  [b_size]: 21 pixels at
    63/40 mm per pixel is 33.075; the double product is below it and the
    code returns 33.07, where [round2] gives 33.08.  Both are within half a
    hundredth of 33.075. *)
Example binary64_tie_b_size :
  Binary64.measure_approximate_b64 (mkBox 10 60 30 30) (mkBox 47 60 36 36)
  = Some (0x1.9fd70a3d70a3dp+5%float, 0x1.60a3d70a3d70ap+3%float,
          0x1.088f5c28f5c29p+5%float)
  /\ (round2 (inject_Z 21 * ratio_of_distance (inject_Z 40)) == 3308 # 100)%Q
  /\ rounds_to (3307 # 100) (inject_Z 21 * ratio_of_distance (inject_Z 40))
  /\ rounds_to (3308 # 100) (inject_Z 21 * ratio_of_distance (inject_Z 40)).
Proof.
  split; [vm_compute; reflexivity |].
  split; [vm_compute; reflexivity |].
  split; (split; [| vm_compute; discriminate]).
  - exists 3307. reflexivity.
  - exists 3308. reflexivity.
Qed.

(** [bridge_width]: 77 pixels at 63/120 mm per pixel is 40.425; the code
    returns 40.43, where [round2] gives 40.42. *)
Example binary64_tie_bridge :
  Binary64.measure_approximate_b64 (mkBox 10 60 30 30) (mkBox 117 60 56 56)
  = Some (0x1.6947ae147ae14p+4%float, 0x1.4370a3d70a3d7p+5%float,
          0x1.151eb851eb852p+4%float)
  /\ (round2 (inject_Z 77 * ratio_of_distance (inject_Z 120)) == 4042 # 100)%Q
  /\ rounds_to (4043 # 100) (inject_Z 77 * ratio_of_distance (inject_Z 120))
  /\ rounds_to (4042 # 100) (inject_Z 77 * ratio_of_distance (inject_Z 120)).
Proof.
  split; [vm_compute; reflexivity |].
  split; [vm_compute; reflexivity |].
  split; (split; [| vm_compute; discriminate]).
  - exists 4043. reflexivity.
  - exists 4042. reflexivity.
Qed.

(** The faces (65, 140, 255, 200) of a 640x480 frame and
    (0, 140, 384, 200) of a 641x480 frame in binary64: the verdicts are
    those of the exact model. *)
Example binary64_real_center :
  Binary64.is_face_centered_b64 65 140 255 200 640 480 = false
  /\ Binary64.is_face_centered_b64 0 140 384 200 641 480 = true.
Proof. split; vm_compute; reflexivity. Qed.

(** A double accepted by [rounds_to_b64] is the double of a value that
    [rounds_to] accepts. *)
Lemma rounds_to_b64_sound (v : float) (x : Q) :
  Binary64.rounds_to_b64 v x = true ->
  exists n : Z,
    PrimFloat.eqb v (PrimFloat.div (Binary64.of_int n) 100%float) = true
    /\ rounds_to (inject_Z n / 100) x.
Proof.
  unfold Binary64.rounds_to_b64, Binary64.hundredths.
  destruct (Binary64.to_int _) as [n |]; [| discriminate].
  destruct (PrimFloat.eqb v _) eqn:E; [| discriminate].
  intros H. apply Qle_bool_iff in H.
  exists n. split; [exact E |]. split; [| exact H].
  exists n. reflexivity.
Qed.

(** Approximate branch: for a left box at x = 10 of width 28 to 32, a
    right box of width 26 to 56 at every x from 0 to 130 (apart, touching,
    overlapping, left of the left box), each of the three doubles the code
    returns has two decimals and is within half a hundredth of the exact
    product. *)
Lemma binary64_approximate_rounds_to :
  forallb
    (fun wl =>
       forallb
         (fun wr =>
            forallb
              (fun xr =>
                 Binary64.approximate_agree
                   (mkBox 10 60 wl wl) (mkBox xr 60 wr wr))
              (Binary64.upto 131 0))
         (Binary64.upto 31 26))
    (Binary64.upto 5 28)
  = true.
Proof. vm_compute. reflexivity. Qed.

(** Precise branch: the eye boxes of [with_circles], every left boundary
    from 0 to 14, right boundary from 16 to 30 and left pupil from 0 to
    30 (pupil distances from 105 down to 75). *)
Lemma binary64_precise_rounds_to :
  forallb
    (fun lb =>
       forallb
         (fun rb =>
            forallb
              (fun lp =>
                 Binary64.precise_agree
                   (mkBox 40 60 30 30) (mkBox 130 60 30 30) lb rb lp 15)
              (Binary64.upto 31 0))
         (Binary64.upto 15 16))
    (Binary64.upto 15 0)
  = true.
Proof. vm_compute. reflexivity. Qed.

(** [with_circles] in binary64: 74.2, 42.0, 12.6. *)
Example binary64_with_circles :
  Binary64.measure_precise_b64
    (mkBox 40 60 30 30) (mkBox 130 60 30 30) 7 23 15 15
  = Some (0x1.28ccccccccccdp+6%float, 42%float, 0x1.9333333333333p+3%float).
Proof. vm_compute. reflexivity. Qed.

End Binary64Facts.

(** ** Strings: [in] and [split] *)

Lemma contains_comma_cons (c : ascii) (rest : string) :
  contains ","%string (String c rest)
  = Ascii.eqb c comma || contains ","%string rest.
Proof.
  cbn [contains String.prefix].
  destruct (ascii_dec _ c) as [E | N].
  - subst c. destruct rest; reflexivity.
  - replace (Ascii.eqb c comma) with false; [reflexivity |].
    symmetry. apply Ascii.eqb_neq. intros E. apply N. rewrite E. reflexivity.
Qed.

Lemma split_not_nil (sep : ascii) (s : string) : split sep s <> [].
Proof.
  destruct s as [| c rest]; cbn; [discriminate |].
  destruct (Ascii.eqb c sep); [discriminate |].
  destruct (split sep rest); discriminate.
Qed.

(** Up to the first separator. *)
Lemma split_app (head rest : string) :
  contains ","%string head = false ->
  split comma (head ++ String comma rest)%string = head :: split comma rest.
Proof.
  induction head as [| c head IH]; intros H.
  - cbn [append split]. rewrite Ascii.eqb_refl. reflexivity.
  - rewrite contains_comma_cons in H. apply orb_false_iff in H.
    destruct H as [C H]. cbn [append split]. rewrite C, (IH H). reflexivity.
Qed.

(** Without a separator there is one piece. *)
Lemma split_one (s : string) :
  contains ","%string s = false -> split comma s = [s].
Proof.
  induction s as [| c s IH]; intros H; [reflexivity |].
  rewrite contains_comma_cons in H. apply orb_false_iff in H.
  destruct H as [C H]. cbn [split]. rewrite C, (IH H). reflexivity.
Qed.

(** A string with a comma is a comma-free head, the comma, and a rest. *)
Lemma contains_comma_split (s : string) :
  contains ","%string s = true ->
  exists head rest,
    s = (head ++ String comma rest)%string
    /\ contains ","%string head = false.
Proof.
  induction s as [| c s IH]; intros H; [discriminate |].
  rewrite contains_comma_cons in H.
  destruct (Ascii.eqb c comma) eqn:C.
  - apply Ascii.eqb_eq in C. subst c. exists EmptyString, s.
    split; reflexivity.
  - cbn [orb] in H. destruct (IH H) as (head & rest & -> & N).
    exists (String c head), rest. split; [reflexivity |].
    rewrite contains_comma_cons, C, N. reflexivity.
Qed.

Lemma contains_comma_app (head rest : string) :
  contains ","%string (head ++ String comma rest)%string = true.
Proof.
  induction head as [| c head IH]; cbn [append];
    rewrite contains_comma_cons.
  - rewrite Ascii.eqb_refl. reflexivity.
  - rewrite IH. apply orb_true_r.
Qed.

(** The piece with index 1. *)
Lemma strip_header_app (head rest : string) :
  contains ","%string head = false ->
  strip_header (head ++ String comma rest)%string
  = Ok (hd EmptyString (split comma rest)).
Proof.
  intros N. unfold strip_header.
  rewrite contains_comma_app, (split_app head rest N). cbn [nth_error].
  destruct (split comma rest) as [| piece pieces] eqn:S;
    [destruct (split_not_nil _ _ S) | reflexivity].
Qed.

Section ApiFacts.

Context {cv : OpenCV} {codec : ImageCodec}.

Local Open Scope string_scope.

Lemma process_frame_messages (frame : image)
    (measurement : option Measurement) (error_msg : option string) :
  process_frame frame = Returns measurement error_msg ->
  (exists m, measurement = Some m /\ error_msg = None)
  \/ (measurement = None
      /\ exists msg, error_msg = Some msg /\ In msg pipeline_messages).
Proof.
  intros H. unfold pipeline_messages.
  destruct (process_frame_stage frame); inversion H; subst;
    try (right; split; [reflexivity |]; eexists; split; [reflexivity |];
         cbn; tauto).
  left. eexists. split; reflexivity.
Qed.

Lemma pipeline_messages_truthy (msg : string) :
  In msg pipeline_messages -> String.eqb msg EmptyString = false.
Proof.
  intros [<- | [<- | [<- | []]]]; reflexivity.
Qed.

(** Lines 186-191 for a decoded frame. *)
Lemma reply_of_frame (frame : image) :
  (exists m,
      process_frame frame = Returns (Some m) None
      /\ integer_fields frame = false
      /\ reply_of (Some frame) = Replies (MeasurementBody (Some m)) 200)
  \/ (exists m,
        process_frame frame = Returns (Some m) None
        /\ integer_fields frame = true
        /\ reply_of (Some frame) = ApiRaises "TypeError")
  \/ (exists msg,
        process_frame frame = Returns None (Some msg)
        /\ In msg pipeline_messages
        /\ reply_of (Some frame) = Replies (ErrorBody msg) 400).
Proof.
  unfold reply_of, process_decoded, jsonify_measurement.
  destruct (process_frame frame) as [measurement error_msg | e] eqn:E.
  - destruct (process_frame_messages _ _ _ E)
      as [(m & -> & ->) | (-> & msg & -> & I)].
    + destruct (integer_fields frame) eqn:F; [right; left | left];
        exists m; repeat split; reflexivity.
    + right. right. exists msg. rewrite (pipeline_messages_truthy _ I).
      repeat split; assumption || reflexivity.
  - destruct (process_frame_stage frame); discriminate.
Qed.

(** The fields are numpy integers exactly when the distance of the path is
    not positive. *)
Lemma integer_fields_path (frame roi_color : image)
    (left_eye right_eye : Box) (e d : Q) :
  calibrator_input frame = Some (roi_color, left_eye, right_eye) ->
  PathPixels roi_color left_eye right_eye e d ->
  integer_fields frame = negb (Qltb 0 d).
Proof.
  intros I P. unfold integer_fields. rewrite I.
  destruct (path_pixels_unique _ _ _ _ _ _ _ P
              (calibration_path_pixels roi_color left_eye right_eye))
    as [_ ->].
  reflexivity.
Qed.

(** [data["image"]] succeeds on a dictionary with that key only; such a
    dictionary passes the test of line 172. *)
Lemma py_getitem_ok (data img_data : json) :
  py_getitem "image" data = Ok img_data ->
  (exists members, data = JObj members)
  /\ truthy data = true
  /\ py_in "image" data = Ok true.
Proof.
  destruct data as [| b | q | s | items | members]; try discriminate.
  cbn. destruct (find _ members) as [kv |] eqn:F; [| discriminate].
  intros _. apply find_some in F. destruct F as [I K].
  split; [eexists; reflexivity |]. split.
  - destruct members; [destruct I | reflexivity].
  - f_equal. apply existsb_exists. exists kv. split; assumption.
Qed.

Lemma py_in_getitem (data : json) :
  py_in "image" data = Ok true ->
  (exists img_data, py_getitem "image" data = Ok img_data)
  \/ ((forall members, data <> JObj members)
      /\ py_getitem "image" data = Exn "TypeError").
Proof.
  destruct data as [| b | q | s | items | members]; cbn;
    try discriminate;
    try (intros _; right; split; [intros; discriminate | reflexivity]).
  intros H. left. inversion H as [E]. rewrite E.
  apply existsb_exists in E. destruct E as (kv & I & K).
  destruct (find _ members) as [kv' |] eqn:F; [eexists; reflexivity |].
  exfalso. apply (find_none _ _ F) in I. rewrite I in K. discriminate.
Qed.

(** [measure_api] once [data["image"]] is known. *)
Lemma measure_api_image (data img_data : json) :
  py_getitem "image" data = Ok img_data ->
  measure_api data
  = match strip_header_of img_data with
    | Exn e => ApiRaises e
    | Ok payload =>
        match decode_frame payload with
        | None => Replies (ErrorBody "Could not decode image.") 400
        | Some frame => reply_of frame
        end
    end.
Proof.
  intros G. destruct (py_getitem_ok _ _ G) as (_ & T & I).
  unfold measure_api. rewrite T, I, G. reflexivity.
Qed.

(** Lines 177-178 on a string. *)
Lemma strip_header_of_str (s : string) :
  strip_header_of (JStr s)
  = match strip_header s with
    | Ok piece => Ok (JStr piece)
    | Exn e => Exn e
    end.
Proof.
  unfold strip_header_of, strip_header. cbn [py_in].
  destruct (contains "," s); reflexivity.
Qed.

End ApiFacts.

(** ** Properties of [measure_api] *)

Section ApiProperties.

Context {cv : OpenCV} {codec : ImageCodec}.

Local Open Scope string_scope.

(** X1.  Lines 177-178 never raise: the index [1] is taken only when there
    is a comma, and then there are two pieces at least.  A text without a
    comma is kept as it is; from [header,payload] the payload is kept. *)
Theorem strip_header_data_url :
  (forall s, exists payload, strip_header s = Ok payload)
  /\ (forall s, contains "," s = false -> strip_header s = Ok s)
  /\ (forall header payload,
        contains "," header = false ->
        contains "," payload = false ->
        strip_header (header ++ String comma payload) = Ok payload).
Proof.
  split; [| split].
  - intros s. unfold strip_header.
    destruct (contains "," s) eqn:C; [| eexists; reflexivity].
    destruct (contains_comma_split s C) as (head & rest & -> & N).
    fold (strip_header (head ++ String comma rest)) in *.
    pose proof (strip_header_app head rest N) as E.
    unfold strip_header in E. rewrite contains_comma_app in E.
    rewrite E. eexists; reflexivity.
  - intros s C. unfold strip_header. rewrite C. reflexivity.
  - intros header payload H P.
    rewrite (strip_header_app header payload H), (split_one payload P).
    reflexivity.
Qed.

(** X2.  With two commas, the text between the first and the second is
    kept and what follows the second comma is dropped. *)
Theorem strip_header_second_comma (a b c : string) :
  contains "," a = false ->
  contains "," b = false ->
  strip_header (a ++ String comma (b ++ String comma c)) = Ok b.
Proof.
  intros A B.
  rewrite (strip_header_app a _ A), (split_app b c B). reflexivity.
Qed.

(** X3.  When [measure_api] replies, it replies 400 with one of its five
    messages, or 200 with a measurement: never 200 with an error message,
    never a missing measurement. *)
Theorem measure_api_replies (data : json) (body : Body) (status : Z) :
  measure_api data = Replies body status ->
  (status = 400 /\ exists msg, body = ErrorBody msg /\ In msg api_messages)
  \/ (status = 200 /\ exists m, body = MeasurementBody (Some m)).
Proof.
  unfold measure_api.
  assert (N : In "No image provided." api_messages) by (cbn; tauto).
  assert (D : In "Could not decode image." api_messages) by (cbn; tauto).
  destruct (truthy data); cbn [negb];
    [| intros H; inversion H; subst; left; split; [reflexivity |];
       eexists; split; [reflexivity | exact N]].
  destruct (py_in "image" data) as [[|] | e]; try discriminate;
    [| intros H; inversion H; subst; left; split; [reflexivity |];
       eexists; split; [reflexivity | exact N]].
  destruct (py_getitem "image" data) as [img_data | e]; try discriminate.
  destruct (strip_header_of img_data) as [payload | e]; try discriminate.
  destruct (decode_frame payload) as [[frame |] |].
  - destruct (reply_of_frame frame) as [(m & _ & _ & R) | [(m & _ & _ & R) | (msg & _ & I & R)]];
      rewrite R; intros H; inversion H; subst.
    + right. split; [reflexivity |]. eexists; reflexivity.
    + left. split; [reflexivity |]. eexists. split; [reflexivity |].
      cbn. cbn in I. tauto.
  - discriminate.
  - intros H; inversion H; subst. left. split; [reflexivity |].
    eexists; split; [reflexivity | exact D].
Qed.

(** X4.  [measure_api] replies 200 with a measurement exactly when the body
    is a dictionary whose ["image"] is a string, the text left by lines
    177-178 decodes to a frame, [process_frame] returns that measurement
    for the frame, and the distance of its calibration path is positive:
    with a distance that is not positive the fields are numpy integers and
    [jsonify] raises. *)
Theorem measure_api_measures (data : json) (m : Measurement) :
  measure_api data = Replies (MeasurementBody (Some m)) 200
  <-> exists s payload frame roi_color left_eye right_eye eye_pixels distance,
        py_getitem "image" data = Ok (JStr s)
        /\ strip_header s = Ok payload
        /\ decode_image payload = Some (Some frame)
        /\ process_frame frame = Returns (Some m) None
        /\ calibrator_input frame = Some (roi_color, left_eye, right_eye)
        /\ PathPixels roi_color left_eye right_eye eye_pixels distance
        /\ (0 < distance)%Q.
Proof.
  split.
  - unfold measure_api.
    destruct (truthy data); cbn [negb]; [| discriminate].
    destruct (py_in "image" data) as [[|] | e]; try discriminate.
    destruct (py_getitem "image" data) as [img_data | e]; try discriminate.
    destruct img_data as [| b | q | s | items | members];
      try (unfold strip_header_of; cbn [py_in]; discriminate).
    + rewrite strip_header_of_str.
      destruct (strip_header s) as [payload | e] eqn:S; [| discriminate].
      cbn [decode_frame].
      destruct (decode_image payload) as [[frame |] |] eqn:Dc;
        try discriminate.
      destruct (reply_of_frame frame)
        as [(m' & P & F & R) | [(m' & _ & _ & R) | (msg & _ & _ & R)]];
        rewrite R; intros H; inversion H; subst.
      destruct (measured_calibrator_input frame m P)
        as (roi & l & r & I & _).
      pose proof (calibration_path_pixels roi l r) as Pp. cbv zeta in Pp.
      rewrite (integer_fields_path _ _ _ _ _ _ I Pp) in F.
      apply negb_false_iff, Qltb_lt in F.
      exists s, payload, frame, roi, l, r. eexists. eexists.
      repeat split; try eassumption.
    + unfold strip_header_of. cbn [py_in].
      destruct (existsb (is_str ",") items); [discriminate |].
      cbn [decode_frame]. discriminate.
    + unfold strip_header_of. cbn [py_in].
      destruct (existsb _ members); [discriminate |].
      cbn [decode_frame]. discriminate.
  - intros (s & payload & frame & roi & l & r & e & d
            & G & S & Dc & P & I & Pp & D).
    rewrite (measure_api_image _ _ G), strip_header_of_str, S.
    cbn [decode_frame]. rewrite Dc.
    pose proof (integer_fields_path _ _ _ _ _ _ I Pp) as F.
    rewrite (proj2 (Qltb_lt _ _) D) in F. cbn [negb] in F.
    destruct (reply_of_frame frame)
      as [(m' & P' & _ & R) | [(m' & _ & F' & _) | (msg & P' & _ & _)]];
      [rewrite R | |]; congruence.
Qed.

(** X5.  [measure_api] replies "No image provided." exactly when the body
    is false as a Python object (null, false, zero, an empty text, list or
    dictionary) or is a dictionary, list or text in which ["image"] does
    not occur. *)
Theorem measure_api_no_image (data : json) :
  measure_api data = Replies (ErrorBody "No image provided.") 400
  <-> truthy data = false \/ py_in "image" data = Ok false.
Proof.
  split.
  - intros H. destruct (truthy data) eqn:T; [right | left; reflexivity].
    unfold measure_api in H. rewrite T in H. cbn [negb] in H.
    destruct (py_in "image" data) as [[|] | e] eqn:I;
      try discriminate; [| reflexivity].
    exfalso.
    destruct (py_getitem "image" data) as [img_data | e]; try discriminate.
    destruct (strip_header_of img_data) as [payload | e]; try discriminate.
    destruct (decode_frame payload) as [[frame |] |]; try discriminate.
    destruct (reply_of_frame frame) as [(m & _ & _ & R) | [(m & _ & _ & R) | (msg & _ & M & R)]];
      rewrite R in H; inversion H; subst.
    destruct M as [M | [M | [M | []]]]; discriminate.
  - unfold measure_api. intros [T | I].
    + rewrite T. reflexivity.
    + destruct (truthy data); [rewrite I |]; reflexivity.
Qed.

(** X6.  When the text decodes to a buffer on which [cv2.imdecode] returns
    [None], [measure_api] does not reply "Could not decode image.": the
    [None] reaches [process_frame], which raises [AttributeError] on
    [frame.shape]. *)
Theorem undecodable_frame_raises (data : json) (s payload : string) :
  py_getitem "image" data = Ok (JStr s) ->
  strip_header s = Ok payload ->
  decode_image payload = Some None ->
  measure_api data = ApiRaises "AttributeError".
Proof.
  intros G S D. rewrite (measure_api_image _ _ G), strip_header_of_str, S.
  cbn [decode_frame]. rewrite D. reflexivity.
Qed.

(** X7.  [measure_api] replies "Could not decode image." exactly when
    [data["image"]] exists, lines 177-178 do not raise on it, and the [try]
    block raises: on a text that the codec refuses, or on a list or a
    dictionary. *)
Theorem measure_api_could_not_decode (data : json) :
  measure_api data = Replies (ErrorBody "Could not decode image.") 400
  <-> exists img_data payload,
        py_getitem "image" data = Ok img_data
        /\ strip_header_of img_data = Ok payload
        /\ decode_frame payload = None.
Proof.
  split.
  - unfold measure_api.
    destruct (truthy data); cbn [negb]; [| discriminate].
    destruct (py_in "image" data) as [[|] | e]; try discriminate.
    destruct (py_getitem "image" data) as [img_data | e] eqn:G;
      try discriminate.
    destruct (strip_header_of img_data) as [payload | e] eqn:S;
      try discriminate.
    destruct (decode_frame payload) as [[frame |] |] eqn:D.
    + destruct (reply_of_frame frame) as [(m & _ & _ & R) | [(m & _ & _ & R) | (msg & _ & M & R)]];
        rewrite R; intros H; inversion H; subst.
      destruct M as [M | [M | [M | []]]]; discriminate.
    + discriminate.
    + intros _. exists img_data, payload.
      repeat split; assumption.
  - intros (img_data & payload & G & S & D).
    rewrite (measure_api_image _ _ G), S, D. reflexivity.
Qed.

(** X8.  When [data["image"]] is not a string, no frame is ever processed:
    null, a boolean or a number raises [TypeError] at line 177; a list or a
    dictionary in which [","] occurs raises [AttributeError] at line 178;
    any other list or dictionary gets "Could not decode image.". *)
Theorem non_string_image (data img_data : json) :
  py_getitem "image" data = Ok img_data ->
  (forall s, img_data <> JStr s) ->
  measure_api data
  = match img_data with
    | JArr _ | JObj _ =>
        match py_in "," img_data with
        | Ok true => ApiRaises "AttributeError"
        | _ => Replies (ErrorBody "Could not decode image.") 400
        end
    | _ => ApiRaises "TypeError"
    end.
Proof.
  intros G N. rewrite (measure_api_image _ _ G).
  destruct img_data as [| b | q | s | items | members];
    try reflexivity.
  - destruct (N s eq_refl).
  - unfold strip_header_of. cbn [py_in].
    destruct (existsb (is_str ",") items); reflexivity.
  - unfold strip_header_of. cbn [py_in].
    destruct (existsb _ members); reflexivity.
Qed.

(** X9.  A body that is not a dictionary is never decoded: it gets
    "No image provided." or raises [TypeError] (a number or [true] at the
    test of line 172; a list or a text in which ["image"] occurs at line
    175). *)
Theorem non_object_body (data : json) :
  (forall members, data <> JObj members) ->
  measure_api data = Replies (ErrorBody "No image provided.") 400
  \/ measure_api data = ApiRaises "TypeError".
Proof.
  intros N. unfold measure_api.
  destruct (truthy data); cbn [negb]; [| left; reflexivity].
  destruct data as [| b | q | s | items | members]; cbn [py_in py_getitem];
    try (right; reflexivity).
  - destruct (contains "image" s); [right | left]; reflexivity.
  - destruct (existsb (is_str "image") items); [right | left]; reflexivity.
  - destruct (N members eq_refl).
Qed.

(** X10.  An error of [process_frame] goes to the client unchanged, with
    status 400: none of its messages is empty, so the test [if error_msg:]
    holds for each. *)
Theorem pipeline_error_passthrough
    (data : json) (s payload : string) (frame : image) (msg : string) :
  py_getitem "image" data = Ok (JStr s) ->
  strip_header s = Ok payload ->
  decode_image payload = Some (Some frame) ->
  process_frame frame = Returns None (Some msg) ->
  measure_api data = Replies (ErrorBody msg) 400.
Proof.
  intros G S D P. rewrite (measure_api_image _ _ G), strip_header_of_str, S.
  cbn [decode_frame]. rewrite D.
  destruct (reply_of_frame frame) as [(m & P' & _ & R) | [(m & P' & _ & R) | (msg' & P' & _ & R)]];
    rewrite R; congruence.
Qed.


End ApiProperties.

(** ** More on the pipeline *)

(** [is_face_centered] in integers. *)
Lemma is_face_centered_Z
    (face_x face_y face_w face_h frame_width frame_height : Z) :
  is_face_centered face_x face_y face_w face_h frame_width frame_height = true
  <-> 5 * Z.abs (face_x + face_w / 2 - frame_width / 2) < frame_width
      /\ 5 * Z.abs (face_y + face_h / 2 - frame_height / 2) < frame_height
      /\ 3 * frame_height < 10 * face_h.
Proof.
  unfold is_face_centered, Qltb.
  cbn [Qnum Qden Qplus Qminus Qopp Qmult inject_Z].
  rewrite !andb_true_iff, !Z.ltb_lt. lia.
Qed.

(** X11.  A face that [is_face_centered] accepts has its center inside the
    frame and a positive height, and the frame is not empty. *)
Theorem accepted_face_inside_frame
    (face_x face_y face_w face_h frame_width frame_height : Z) :
  is_face_centered face_x face_y face_w face_h frame_width frame_height = true ->
  0 <= face_x + face_w / 2 < frame_width
  /\ 0 <= face_y + face_h / 2 < frame_height
  /\ 0 < face_h.
Proof.
  intros H. apply is_face_centered_Z in H.
  pose proof (Z.div_mod frame_width 2 ltac:(lia)).
  pose proof (Z.mod_pos_bound frame_width 2 ltac:(lia)).
  pose proof (Z.div_mod frame_height 2 ltac:(lia)).
  pose proof (Z.mod_pos_bound frame_height 2 ltac:(lia)).
  lia.
Qed.

(** Two insertions with different [x] commute. *)
Lemma insert_by_x_comm (a b : Box) (l : list Box) :
  bx a <> bx b ->
  insert_by_x a (insert_by_x b l) = insert_by_x b (insert_by_x a l).
Proof.
  intros N. induction l as [| c t IH]; cbn [insert_by_x].
  - destruct (bx b <? bx a) eqn:E1, (bx a <? bx b) eqn:E2; try reflexivity;
      rewrite ?Z.ltb_lt, ?Z.ltb_ge in *; lia.
  - destruct (bx c <? bx b) eqn:Cb, (bx c <? bx a) eqn:Ca;
      cbn [insert_by_x]; rewrite ?Cb, ?Ca.
    + rewrite IH. reflexivity.
    + replace (bx a <? bx b) with true; [reflexivity |].
      symmetry. rewrite Z.ltb_lt. rewrite Z.ltb_lt in Cb.
      rewrite Z.ltb_ge in Ca. lia.
    + replace (bx b <? bx a) with true; [reflexivity |].
      symmetry. rewrite Z.ltb_lt. rewrite Z.ltb_lt in Ca.
      rewrite Z.ltb_ge in Cb. lia.
    + destruct (bx b <? bx a) eqn:E1, (bx a <? bx b) eqn:E2;
        cbn [insert_by_x]; rewrite ?Cb, ?Ca; try reflexivity;
        rewrite ?Z.ltb_lt, ?Z.ltb_ge in *; lia.
Qed.

(** X12.  When the detected boxes have distinct [x], the sorted list, and
    with it the choice of [left_eye] and [right_eye], does not depend on
    the order in which the detector lists them. *)
Theorem detection_order_irrelevant (eyes eyes' : list Box) :
  Permutation eyes eyes' ->
  NoDup (map bx eyes) ->
  sorted_by_x eyes = sorted_by_x eyes'.
Proof.
  induction 1 as [| x l l' P IH | x y l | l l' l'' P1 IH1 P2 IH2];
    intros D.
  - reflexivity.
  - cbn [sorted_by_x]. rewrite IH; [reflexivity |].
    cbn [map] in D. inversion D; assumption.
  - cbn [sorted_by_x]. apply insert_by_x_comm.
    cbn [map] in D. inversion D as [| ? ? Hy _]; subst.
    intros E. apply Hy. left. symmetry. exact E.
  - rewrite IH1 by exact D. apply IH2.
    eapply Permutation_NoDup; [| exact D].
    apply Permutation_map. exact P1.
Qed.

(** In a filtered list that begins with [a] and [b], [a] comes before
    [b] in the list that was filtered. *)
Lemma filter_two_order (p : Box -> bool) (l : list Box) (a b : Box)
    (t : list Box) :
  filter p l = a :: b :: t ->
  exists l1 l2 l3, l = l1 ++ a :: l2 ++ b :: l3.
Proof.
  assert (One : forall (l : list Box) (b : Box) (t : list Box),
             filter p l = b :: t -> exists l2 l3, l = l2 ++ b :: l3).
  { clear. intros l. induction l as [| c l IH]; intros b t H;
      [discriminate |].
    cbn [filter] in H. destruct (p c).
    - inversion H; subst. exists [], l. reflexivity.
    - destruct (IH _ _ H) as (l2 & l3 & ->). exists (c :: l2), l3.
      reflexivity. }
  induction l as [| c l IH]; intros H; [discriminate |].
  cbn [filter] in H. destruct (p c).
  - inversion H as [[E1 E2]]. destruct (One _ _ _ E2) as (l2 & l3 & ->).
    exists [], l2, l3. reflexivity.
  - destruct (IH H) as (l1 & l2 & l3 & ->). exists (c :: l1), l2, l3.
    reflexivity.
Qed.

(** X19.  [sorted] is stable: when the two chosen boxes have the same
    [x], [left_eye] is the one that the detector listed first. *)
Theorem equal_x_keeps_detection_order
    (eyes : list Box) (left_eye right_eye : Box) (rest : list Box) :
  sorted_by_x eyes = left_eye :: right_eye :: rest ->
  bx left_eye = bx right_eye ->
  exists l1 l2 l3, eyes = l1 ++ left_eye :: l2 ++ right_eye :: l3.
Proof.
  intros S E.
  pose proof (sorted_by_x_stable (bx left_eye) eyes) as F.
  rewrite S in F. cbn [filter] in F.
  rewrite Z.eqb_refl in F. rewrite <- E, Z.eqb_refl in F.
  symmetry in F. eapply filter_two_order. exact F.
Qed.

Section MorePipeline.

Context {cv : OpenCV}.

(** X13.  The loop stops at the first face that [is_face_centered]
    accepts: the faces before it are skipped, the faces after it are never
    looked at, also when the accepted face has fewer than two eye boxes and
    the invocation fails. *)
Theorem first_centered_face_decides
    (frame : image) (skipped : list Box) (face : Box) (later : list Box) :
  faces_of frame = skipped ++ face :: later ->
  (forall f, In f skipped -> centered_in frame f = false) ->
  centered_in frame face = true ->
  accepted_face frame = Some face
  /\ process_frame frame = process_face frame (cvtColor_gray frame) face
  /\ ((List.length (eyes_of frame face) < 2)%nat ->
      process_frame frame
      = Returns None (Some "Not enough eyes detected"%string)).
Proof.
  intros F S C.
  assert (A : accepted_face frame = Some face).
  { unfold accepted_face. rewrite F. clear F.
    induction skipped as [| f fs IH]; cbn [app find].
    - rewrite C. reflexivity.
    - rewrite (S f (or_introl eq_refl)). apply IH.
      intros g G. apply S. right. exact G. }
  assert (P : process_frame frame
              = process_face frame (cvtColor_gray frame) face).
  { rewrite process_frame_stages, A, F.
    destruct skipped; reflexivity. }
  split; [exact A |]. split; [exact P |].
  intros L. rewrite P, process_face_eyes.
  replace (Z.of_nat (List.length (eyes_of frame face)) <? 2) with true;
    [reflexivity |].
  symmetry. apply Z.ltb_lt. lia.
Qed.

(** [round (x, 2)] moves [x] by half a hundredth at most. *)
Lemma round2_near (x : Q) :
  (x - (1 # 200) <= round2 x /\ round2 x <= x + (1 # 200))%Q.
Proof.
  unfold round2. destruct (round_half_even_near (x * 100)) as [L U].
  split.
  - apply Qle_shift_div_l; [reflexivity |]. lra.
  - apply Qle_shift_div_r; [reflexivity |]. lra.
Qed.

(** The calibration of an invocation, unfolded once. *)
Lemma calibration_of_ratio (roi_color : image) (left_eye right_eye : Box) :
  let cal := calibration_of roi_color left_eye right_eye in
  pixel_to_mm_ratio cal = ratio_of_distance (interpupil_distance_pixels cal)
  /\ cal_eye_width_mm cal
     = round2 (cal_eye_pixels cal * pixel_to_mm_ratio cal).
Proof. unfold calibration_of. apply calibrate_ratio. Qed.

(** X15.  On the approximate branch with a positive distance, the mean box
    width and the gap between the boxes add up to the distance between
    the box centers; so [eye_width_mm + bridge_width_mm] is 63 up to the
    two roundings, whatever the boxes are. *)
Theorem approximate_widths_sum_to_63
    (roi_color : image) (left_eye right_eye : Box) :
  let cal := calibration_of roi_color left_eye right_eye in
  let m := measure_eyes roi_color left_eye right_eye in
  cal_path cal = Approximate ->
  (0 < interpupil_distance_pixels cal)%Q ->
  (cal_eye_pixels cal + inject_Z (bridge_distance_pixels left_eye right_eye)
   == interpupil_distance_pixels cal)%Q
  /\ (Qabs (eye_width_mm m + bridge_width_mm m - 63) <= 1 # 100)%Q.
Proof.
  intros cal m P D.
  destruct (calibration_of_ratio roi_color left_eye right_eye) as [R W].
  fold cal in R, W.
  assert (A := P). unfold cal, calibration_of in A.
  apply calibrate_approximate in A.
  fold (calibration_of roi_color left_eye right_eye) in A. fold cal in A.
  destruct A as [Ae Ad].
  assert (S : (cal_eye_pixels cal
               + inject_Z (bridge_distance_pixels left_eye right_eye)
               == interpupil_distance_pixels cal)%Q).
  { rewrite Ae, Ad. unfold bridge_distance_pixels, Z.sub.
    rewrite !inject_Z_plus, !inject_Z_opp, !inject_Z_plus. field. }
  split; [exact S |].
  assert (K : (interpupil_distance_pixels cal * pixel_to_mm_ratio cal == 63)%Q).
  { rewrite R. unfold ratio_of_distance.
    rewrite (proj2 (Qltb_lt _ _) D). unfold KNOWN_DISTANCE_MM.
    change (inject_Z 63) with 63%Q. field. lra. }
  unfold m, measure_eyes. cbn [eye_width_mm bridge_width_mm]. fold cal.
  rewrite W.
  set (r := pixel_to_mm_ratio cal) in *.
  set (e := cal_eye_pixels cal) in *.
  set (b := inject_Z (bridge_distance_pixels left_eye right_eye)) in *.
  destruct (round2_near (e * r)) as [L1 U1].
  destruct (round2_near (b * r)) as [L2 U2].
  assert (T : (e * r + b * r == 63)%Q) by (rewrite <- K, <- S; ring).
  apply Qabs_Qle_condition. split; lra.
Qed.

Lemma Qltb_comp (a a' b b' : Q) :
  (a == a')%Q -> (b == b')%Q -> Qltb a b = Qltb a' b'.
Proof.
  intros Ea Eb. destruct (Qltb a b) eqn:A; symmetry.
  - apply Qltb_lt. apply Qltb_lt in A. rewrite <- Ea, <- Eb. exact A.
  - apply Qltb_ge. apply Qltb_ge in A. rewrite <- Ea, <- Eb. exact A.
Qed.

Lemma ratio_of_distance_comp (d d' : Q) :
  (d == d')%Q -> (ratio_of_distance d == ratio_of_distance d')%Q.
Proof.
  intros E. unfold ratio_of_distance.
  rewrite (Qltb_comp 0 0 d d' (Qeq_refl 0) E).
  destruct (Qltb 0 d'); [rewrite E |]; reflexivity.
Qed.

(** A positive number of half pixels is one half pixel at least. *)
Lemma ratio_of_half_pixels (k : Z) :
  (ratio_of_distance (inject_Z k / 2) <= 126)%Q.
Proof.
  unfold ratio_of_distance.
  destruct (Qltb 0 (inject_Z k / 2)) eqn:L; [| lra].
  apply Qltb_lt in L.
  assert (K : 1 <= k).
  { assert (Z0 : (inject_Z 0 < inject_Z k)%Q).
    { change (inject_Z 0) with 0%Q.
      setoid_replace (inject_Z k) with (inject_Z k / 2 * 2)%Q by field.
      lra. }
    rewrite <- Zlt_Qlt in Z0. lia. }
  rewrite Zle_Qle in K. change (inject_Z 1) with 1%Q in K.
  unfold KNOWN_DISTANCE_MM. change (inject_Z 63) with 63%Q.
  apply Qle_shift_div_r; [exact L |].
  setoid_replace (126 * (inject_Z k / 2))%Q with (63 * inject_Z k)%Q
    by field. lra.
Qed.

Lemma ratio_of_pixels (k : Z) :
  (ratio_of_distance (inject_Z k) <= 63)%Q.
Proof.
  unfold ratio_of_distance.
  destruct (Qltb 0 (inject_Z k)) eqn:L; [| lra].
  apply Qltb_lt in L. change 0%Q with (inject_Z 0) in L.
  assert (K : 1 <= k) by (rewrite <- Zlt_Qlt in L; lia).
  rewrite Zle_Qle in K. change (inject_Z 1) with 1%Q in K.
  change (inject_Z 0) with 0%Q in L.
  unfold KNOWN_DISTANCE_MM. change (inject_Z 63) with 63%Q.
  apply Qle_shift_div_r; lra.
Qed.

(** X16.  The ratio is positive and at most 126 mm per pixel, at most 63
    on the precise branch: a positive distance is at least one pixel
    there, and at least half a pixel between two box centers. *)
Theorem ratio_bounds (roi_color : image) (left_eye right_eye : Box) :
  let cal := calibration_of roi_color left_eye right_eye in
  (0 < pixel_to_mm_ratio cal)%Q
  /\ (pixel_to_mm_ratio cal <= 126)%Q
  /\ (cal_path cal = Precise -> (pixel_to_mm_ratio cal <= 63)%Q).
Proof.
  intros cal.
  destruct (calibration_of_ratio roi_color left_eye right_eye) as [R _].
  fold cal in R.
  assert (Pr : cal_path cal = Precise -> (pixel_to_mm_ratio cal <= 63)%Q).
  { intros P. unfold cal, calibration_of in P.
    apply calibrate_precise in P.
    destruct P as (lb & rb & lp & rp & _ & _ & _ & _ & _ & D).
    fold (calibration_of roi_color left_eye right_eye) in D. fold cal in D.
    rewrite R, D. apply ratio_of_pixels. }
  split; [apply calibration_ratio_pos |]. split; [| exact Pr].
  destruct (cal_path cal) eqn:P.
  - specialize (Pr eq_refl). lra.
  - unfold cal, calibration_of in P. apply calibrate_approximate in P.
    fold (calibration_of roi_color left_eye right_eye) in P. fold cal in P.
    destruct P as [_ D].
    assert (E : (interpupil_distance_pixels cal
                 == inject_Z (2 * bx right_eye + bw right_eye
                              - (2 * bx left_eye + bw left_eye)) / 2)%Q).
    { rewrite D. unfold Z.sub.
      rewrite !inject_Z_plus, !inject_Z_opp, !inject_Z_plus, !inject_Z_mult.
      change (inject_Z 2) with 2%Q. field. }
    rewrite R, (ratio_of_distance_comp _ _ E). apply ratio_of_half_pixels.
Qed.

(** X17.  For eye boxes of non-negative width and height, the pixel
    height behind [b_size_mm] is non-negative, at most the larger box
    height, and at most 60% of the larger box width. *)
Theorem b_size_capped (left_eye right_eye : Box) :
  0 <= bw left_eye -> 0 <= bh left_eye ->
  0 <= bw right_eye -> 0 <= bh right_eye ->
  0 <= b_size_pixels left_eye right_eye
  /\ b_size_pixels left_eye right_eye <= Z.max (bh left_eye) (bh right_eye)
  /\ 5 * b_size_pixels left_eye right_eye
     <= 3 * Z.max (bw left_eye) (bw right_eye).
Proof.
  intros Wl Hl Wr Hr. unfold b_size_pixels, capped_eye_height.
  rewrite !int_of_float_six_tenths.
  rewrite !Z.quot_div_nonneg by lia.
  pose proof (Z.div_mod (3 * bw left_eye) 5 ltac:(lia)).
  pose proof (Z.mod_pos_bound (3 * bw left_eye) 5 ltac:(lia)).
  pose proof (Z.div_mod (3 * bw right_eye) 5 ltac:(lia)).
  pose proof (Z.mod_pos_bound (3 * bw right_eye) 5 ltac:(lia)).
  lia.
Qed.

(** X18.  On the precise branch the eye width in pixels is the offset
    between the two boxes, plus the offset between the two iris centers,
    plus the two iris radii; the distance is the offset between the boxes
    plus the offset between the two pupil centers.  The iris circle and the
    pupil circle of an eye come from two searches and need not share a
    center. *)
Theorem precise_branch_geometry
    (roi_color : image) (left_eye right_eye : Box)
    (left_iris right_iris left_pupil right_pupil : Circle * list Circle) :
  iris_circles (eye_roi_of roi_color left_eye) = Some left_iris ->
  iris_circles (eye_roi_of roi_color right_eye) = Some right_iris ->
  pupil_circles (eye_roi_of roi_color left_eye) = Some left_pupil ->
  pupil_circles (eye_roi_of roi_color right_eye) = Some right_pupil ->
  let center c := fst (fst (first_circle c)) in
  let radius c := snd (first_circle c) in
  let cal := calibration_of roi_color left_eye right_eye in
  cal_path cal = Precise
  /\ cal_eye_pixels cal
     = inject_Z ((bx right_eye - bx left_eye)
                 + (center right_iris - center left_iris)
                 + (radius right_iris + radius left_iris))
  /\ interpupil_distance_pixels cal
     = inject_Z ((bx right_eye - bx left_eye)
                 + (center right_pupil - center left_pupil)).
Proof.
  intros Il Ir Pl Pr center radius cal.
  unfold cal, calibration_of, detect_iris_boundaries, detect_pupil_center.
  rewrite Il, Ir, Pl, Pr. unfold center, radius.
  destruct (first_circle left_iris) as [[xl yl] rl].
  destruct (first_circle right_iris) as [[xr yr] rr].
  destruct (first_circle left_pupil) as [[pl ql] sl].
  destruct (first_circle right_pupil) as [[pr qr] sr].
  cbn. repeat split; f_equal; lia.
Qed.

(** X20.  [process_frame] returns a measurement exactly when some
    candidate face is accepted and the first accepted one has two eye
    boxes or more, whatever the sub-feature detectors find. *)
Theorem measurement_iff (frame : image) :
  (exists m, process_frame frame = Returns (Some m) None)
  <-> exists face,
        accepted_face frame = Some face
        /\ (2 <= List.length (eyes_of frame face))%nat.
Proof.
  split.
  - intros (m & H).
    destruct (process_frame_stage frame)
      as [F | F A | face A L | face l r rest A L S]; try discriminate.
    exists face. split; assumption.
  - intros (face & A & L).
    destruct (process_frame_stage frame)
      as [F | F A' | face' A' L' | face' l r rest A' L' S].
    + unfold accepted_face in A. rewrite F in A. discriminate.
    + congruence.
    + rewrite A in A'. inversion A'; subst. lia.
    + eexists. reflexivity.
Qed.

End MorePipeline.

(** ** The properties on the scripted scenes *)

Section Witnesses.

Local Open Scope string_scope.

Lemma strip_header_second_comma_witness :
  strip_header "data:image/jpeg;base64,AAAA,BBBB" = Ok "AAAA".
Proof.
  apply (strip_header_second_comma "data:image/jpeg;base64" "AAAA" "BBBB");
    reflexivity.
Defined.

Example strip_header_jpeg :
  strip_header "data:image/jpeg;base64,frame" = Ok "frame"
  /\ strip_header "frame" = Ok "frame"
  /\ strip_header "frame," = Ok EmptyString.
Proof. repeat split. Qed.

Lemma measure_api_replies_witness :
  ScriptedApi.post Scripted.one_eye (ScriptedApi.body_of "frame")
  = Replies (ErrorBody "Not enough eyes detected") 400
  /\ ((400 = 400
       /\ exists msg,
            ErrorBody "Not enough eyes detected" = ErrorBody msg
            /\ In msg api_messages)
      \/ (400 = 200
          /\ exists m,
               ErrorBody "Not enough eyes detected"
               = MeasurementBody (Some m))).
Proof.
  split; [vm_compute; reflexivity |].
  exact (@measure_api_replies (Scripted.scripted Scripted.one_eye)
           (ScriptedApi.codec Scripted.one_eye)
           (ScriptedApi.body_of "frame") _ _ eq_refl).
Defined.

Lemma undecodable_frame_raises_witness :
  ScriptedApi.post Scripted.scenario_A
    (ScriptedApi.body_of "data:image/jpeg;base64,junk")
  = ApiRaises "AttributeError".
Proof.
  apply (@undecodable_frame_raises (Scripted.scripted Scripted.scenario_A)
           (ScriptedApi.codec Scripted.scenario_A)
           (ScriptedApi.body_of "data:image/jpeg;base64,junk")
           "data:image/jpeg;base64,junk" "junk");
    reflexivity.
Defined.

Lemma non_string_image_witness :
  ScriptedApi.post Scripted.scenario_A (JObj [("image", JNull)])
  = ApiRaises "TypeError"
  /\ ScriptedApi.post Scripted.scenario_A
       (JObj [("image", JArr [JStr ","])])
     = ApiRaises "AttributeError"
  /\ ScriptedApi.post Scripted.scenario_A
       (JObj [("image", JArr [JNum 1])])
     = Replies (ErrorBody "Could not decode image.") 400.
Proof.
  split; [| split].
  - apply (@non_string_image (Scripted.scripted Scripted.scenario_A)
             (ScriptedApi.codec Scripted.scenario_A)
             (JObj [("image", JNull)]) JNull);
      [reflexivity | intros s; discriminate].
  - apply (@non_string_image (Scripted.scripted Scripted.scenario_A)
             (ScriptedApi.codec Scripted.scenario_A)
             (JObj [("image", JArr [JStr ","])]) (JArr [JStr ","]));
      [reflexivity | intros s; discriminate].
  - apply (@non_string_image (Scripted.scripted Scripted.scenario_A)
             (ScriptedApi.codec Scripted.scenario_A)
             (JObj [("image", JArr [JNum 1])]) (JArr [JNum 1]));
      [reflexivity | intros s; discriminate].
Defined.

Lemma non_object_body_witness :
  ScriptedApi.post Scripted.scenario_A (JArr [JStr "image"])
  = Replies (ErrorBody "No image provided.") 400
  \/ ScriptedApi.post Scripted.scenario_A (JArr [JStr "image"])
     = ApiRaises "TypeError".
Proof.
  apply (@non_object_body (Scripted.scripted Scripted.scenario_A)
           (ScriptedApi.codec Scripted.scenario_A) (JArr [JStr "image"])).
  intros members. discriminate.
Defined.

Lemma pipeline_error_passthrough_witness :
  ScriptedApi.post Scripted.off_center
    (ScriptedApi.body_of "data:image/jpeg;base64,frame")
  = Replies (ErrorBody "No centered face found") 400.
Proof.
  apply (@pipeline_error_passthrough (Scripted.scripted Scripted.off_center)
           (ScriptedApi.codec Scripted.off_center)
           (ScriptedApi.body_of "data:image/jpeg;base64,frame")
           "data:image/jpeg;base64,frame" "frame"
           (Scripted.frame_of Scripted.off_center));
    reflexivity.
Defined.

Lemma accepted_face_inside_frame_witness :
  0 <= 220 + 200 / 2 < 640 /\ 0 <= 140 + 200 / 2 < 480 /\ 0 < 200.
Proof.
  apply (accepted_face_inside_frame 220 140 200 200 640 480). reflexivity.
Defined.

Lemma detection_order_irrelevant_witness :
  sorted_by_x [mkBox 130 60 30 30; mkBox 40 60 30 30; mkBox 100 20 30 30]
  = sorted_by_x [mkBox 100 20 30 30; mkBox 130 60 30 30; mkBox 40 60 30 30].
Proof.
  apply detection_order_irrelevant.
  - apply Permutation_cons_app with (l1 := [mkBox 100 20 30 30])
                                    (l2 := [mkBox 40 60 30 30]).
    apply perm_swap.
  - cbn. repeat constructor; cbn; intros H; decompose [or] H; lia.
Defined.

Lemma equal_x_keeps_detection_order_witness :
  exists l1 l2 l3,
    Scripted.scene_eyes Scripted.same_x
    = (l1 ++ mkBox 40 60 30 30 :: l2 ++ mkBox 40 100 30 30 :: l3)%list.
Proof.
  apply (equal_x_keeps_detection_order
           (Scripted.scene_eyes Scripted.same_x)
           (mkBox 40 60 30 30) (mkBox 40 100 30 30) []);
    reflexivity.
Defined.

Lemma first_centered_face_decides_witness :
  @accepted_face (Scripted.scripted ScriptedApi.crowded)
    (Scripted.frame_of ScriptedApi.crowded)
  = Some (mkBox 220 140 200 200)
  /\ Scripted.run ScriptedApi.crowded
     = Returns None (Some "Not enough eyes detected").
Proof.
  destruct (@first_centered_face_decides
              (Scripted.scripted ScriptedApi.crowded)
              (Scripted.frame_of ScriptedApi.crowded)
              [mkBox 0 140 200 200] (mkBox 220 140 200 200)
              [mkBox 230 140 200 200] eq_refl)
    as (A & _ & E).
  - intros f [<- | []]. reflexivity.
  - reflexivity.
  - split; [exact A |]. apply E. cbn. lia.
Defined.

Lemma approximate_widths_sum_to_63_witness :
  (Qabs
     (eye_width_mm
        (@measure_eyes (Scripted.scripted Scripted.scenario_A)
           (Scripted.mkView 220 140 200 200)
           (mkBox 40 60 30 30) (mkBox 130 60 30 30))
      + bridge_width_mm
          (@measure_eyes (Scripted.scripted Scripted.scenario_A)
             (Scripted.mkView 220 140 200 200)
             (mkBox 40 60 30 30) (mkBox 130 60 30 30))
      - 63)
   <= 1 # 100)%Q.
Proof.
  apply (@approximate_widths_sum_to_63
           (Scripted.scripted Scripted.scenario_A)
           (Scripted.mkView 220 140 200 200)
           (mkBox 40 60 30 30) (mkBox 130 60 30 30));
    reflexivity.
Defined.

Lemma b_size_capped_witness :
  0 <= b_size_pixels (mkBox 40 60 31 40) (mkBox 103 60 31 40)
  /\ b_size_pixels (mkBox 40 60 31 40) (mkBox 103 60 31 40) <= Z.max 40 40
  /\ 5 * b_size_pixels (mkBox 40 60 31 40) (mkBox 103 60 31 40)
     <= 3 * Z.max 31 31.
Proof.
  apply (b_size_capped (mkBox 40 60 31 40) (mkBox 103 60 31 40));
    cbn; lia.
Defined.

Lemma precise_branch_geometry_witness :
  cal_path
    (@calibration_of (Scripted.scripted Scripted.with_circles)
       (Scripted.mkView 220 140 200 200)
       (mkBox 40 60 30 30) (mkBox 130 60 30 30))
  = Precise
  /\ cal_eye_pixels
       (@calibration_of (Scripted.scripted Scripted.with_circles)
          (Scripted.mkView 220 140 200 200)
          (mkBox 40 60 30 30) (mkBox 130 60 30 30))
     = inject_Z (90 + 0 + 16)
  /\ interpupil_distance_pixels
       (@calibration_of (Scripted.scripted Scripted.with_circles)
          (Scripted.mkView 220 140 200 200)
          (mkBox 40 60 30 30) (mkBox 130 60 30 30))
     = inject_Z (90 + 0).
Proof.
  exact (@precise_branch_geometry (Scripted.scripted Scripted.with_circles)
           (Scripted.mkView 220 140 200 200)
           (mkBox 40 60 30 30) (mkBox 130 60 30 30)
           ((15, 15, 8)%Q, []) ((15, 15, 8)%Q, [])
           ((15, 15, 4)%Q, []) ((15, 15, 4)%Q, [])
           eq_refl eq_refl eq_refl eq_refl).
Defined.


End Witnesses.
